(** * LorenzODE.py: Lyapunov spectrum of a Lorenz-like flow by the pull-back method

    A shallow embedding of [src/LorenzODE.py].  The numeric code is written
    once, over an interface [Arith] of the arithmetic the script uses, and
    instantiated twice:

    - [R_Arith]: exact real arithmetic, for the algebraic properties
      (linearity of the tangent step, orthonormality of the pull-back);
    - [Float_Arith]: IEEE 754 binary64, the arithmetic of Python's [float]
      and of [numpy.float64], for evaluating the code on concrete inputs.

    Python distinguishes the built-in [float], whose true division raises
    [ZeroDivisionError] on a zero divisor, from [numpy.float64] (what
    [sqrt] and [log] of pylab return), whose division follows IEEE 754 and
    returns inf or nan.  That difference is modelled where the script
    divides by a computed value: see [pykind] and [truediv]. *)

From Stdlib Require Import Reals Lra List ZArith QArith Qreals Bool Lia.
From Stdlib Require PrimFloat Uint63.
Import ListNotations.

Set Implicit Arguments.

(** ** The arithmetic of the script *)

Declare Scope py_scope.
Delimit Scope py_scope with py.

Class Arith (F : Type) : Type := {
  lit   : Q -> F;            (* a decimal literal such as 0.01 or 2.0 *)
  fadd  : F -> F -> F;
  fsub  : F -> F -> F;
  fmul  : F -> F -> F;
  fdiv  : F -> F -> F;       (* the quotient when no exception is raised *)
  fneg  : F -> F;
  fabs  : F -> F;            (* abs *)
  fsqrt : F -> F;            (* sqrt, from pylab *)
  fltb  : F -> F -> bool;    (* <  *)
  fleb  : F -> F -> bool;    (* <= *)
  feqb  : F -> F -> bool     (* == *)
}.

Arguments lit {F _} q%_Q.

Infix "+" := fadd : py_scope.
Infix "-" := fsub : py_scope.
Infix "*" := fmul : py_scope.
Infix "/" := fdiv : py_scope.
Notation "- x" := (fneg x) : py_scope.
Infix "<?" := fltb : py_scope.
Infix "<=?" := fleb : py_scope.
Infix "==?" := feqb (at level 70, no associativity) : py_scope.

(** float(n) of an integer count. *)
Definition float_of_nat {F} `{Arith F} (n : nat) : F :=
  lit (inject_Z (Z.of_nat n)).

(** Exact real arithmetic. *)
#[export] Instance R_Arith : Arith R := {
  lit q := Q2R q;
  fadd := Rplus;
  fsub := Rminus;
  fmul := Rmult;
  fdiv := Rdiv;
  fneg := Ropp;
  fabs := Rabs;
  fsqrt := R_sqrt.sqrt;
  fltb x y := if Rlt_dec x y then true else false;
  fleb x y := if Rle_dec x y then true else false;
  feqb x y := if Req_dec_T x y then true else false
}.

(** IEEE 754 binary64.  A literal is the correctly rounded quotient of its
    numerator and denominator, which is the double Python reads it as. *)
Definition float_of_Z (z : Z) : PrimFloat.float :=
  match z with
  | Z0 => PrimFloat.zero
  | Zpos _ => PrimFloat.of_uint63 (Uint63.of_Z z)
  | Zneg p => PrimFloat.opp (PrimFloat.of_uint63 (Uint63.of_Z (Zpos p)))
  end.

#[export] Instance Float_Arith : Arith PrimFloat.float := {
  lit q := PrimFloat.div (float_of_Z (Qnum q)) (float_of_Z (Zpos (Qden q)));
  fadd := PrimFloat.add;
  fsub := PrimFloat.sub;
  fmul := PrimFloat.mul;
  fdiv := PrimFloat.div;
  fneg := PrimFloat.opp;
  fabs := PrimFloat.abs;
  fsqrt := PrimFloat.sqrt;
  fltb := PrimFloat.ltb;
  fleb := PrimFloat.leb;
  feqb := PrimFloat.eqb
}.

(** ** Exceptions and the two float representations *)

Inductive exn : Type :=
| ZeroDivisionError
| IndexError.

Inductive outcome (A : Type) : Type :=
| Returns (a : A)
| Raises (e : exn).

Arguments Returns {A} a.
Arguments Raises {A} e.

Definition bind {A B} (c : outcome A) (k : A -> outcome B) : outcome B :=
  match c with
  | Returns a => k a
  | Raises e => Raises e
  end.

Notation "x <- c ;; k" := (bind c (fun x => k))
  (at level 61, c at next level, right associativity).
Notation "' pat <- c ;; k" := (bind c (fun x => match x with pat => k end))
  (at level 61, pat pattern, c at next level, right associativity).

Definition raised {A} (c : outcome A) : bool :=
  match c with
  | Returns _ => false
  | Raises _ => true
  end.

(** for n in range(0, N): s = body(s) *)
Fixpoint for_range {S} (N : nat) (body : S -> outcome S) (s : S) : outcome S :=
  match N with
  | O => Returns s
  | S N' => s' <- body s ;; for_range N' body s'
  end.

(** The same loop for a body that cannot raise. *)
Fixpoint for_range_pure {S} (N : nat) (body : S -> S) (s : S) : S :=
  match N with
  | O => s
  | S N' => for_range_pure N' body (body s)
  end.

Inductive pykind : Type :=
| PyFloat      (* built-in float (or int) *)
| NpFloat64.   (* numpy.float64 *)

(** The type of the result of a binary operation: numpy.float64 as soon
    as one operand is. *)
Definition join (k1 k2 : pykind) : pykind :=
  match k1, k2 with
  | PyFloat, PyFloat => PyFloat
  | _, _ => NpFloat64
  end.

(** A point (x, y, z) or a tangent vector (dx, dy, dz). *)
Definition V3 (F : Type) : Type := (F * F * F)%type.

Section Numeric.

Context {F : Type} `{Arith F}.
Local Open Scope py_scope.

(** [x / y] where [k] is the joined representation of [x] and [y]. *)
Definition truediv (k : pykind) (x y : F) : outcome F :=
  match k with
  | PyFloat =>
      if y ==? lit 0 then Raises ZeroDivisionError else Returns (x / y)
  | NpFloat64 => Returns (x / y)
  end.

(** A number together with its run-time representation. *)
Record pynum : Type := PyNum { kind : pykind; value : F }.

Definition py_add (a b : pynum) : pynum :=
  PyNum (join (kind a) (kind b)) (value a + value b).

Definition py_abs (a : pynum) : pynum :=
  PyNum (kind a) (fabs (value a)).

Definition py_truediv (a b : pynum) : outcome pynum :=
  let k := join (kind a) (kind b) in
  q <- truediv k (value a) (value b) ;; Returns (PyNum k q).

(** ** The Lorenz 3D ODEs (lines 13-20) *)

Definition LorenzXDot (alpha gamma mu beta delta lambd x y z : F) : F :=
  alpha * y * z - gamma * x.

Definition LorenzYDot (alpha gamma mu beta delta lambd x y z : F) : F :=
  mu * (y + z) - beta * x * z.

Definition LorenzZDot (alpha gamma mu beta delta lambd x y z : F) : F :=
  delta * y - lambd * z.

(** ** The tangent space (linearized) flow (lines 23-30) *)

Definition LorenzDXDot (alpha gamma mu beta delta lambd x y z dx dy dz : F) : F :=
  alpha * (y * dz + z * dy) - gamma * dx.

Definition LorenzDYDot (alpha gamma mu beta delta lambd x y z dx dy dz : F) : F :=
  mu * (dy + dz) - beta * (x * dz + z * dx).

Definition LorenzDZDot (alpha gamma mu beta delta lambd x y z dx dy dz : F) : F :=
  delta * dy - lambd * dz.

(** Volume contraction (line 34). *)
Definition LorenzODETrJac (alpha gamma mu beta delta lambd x y z : F) : F :=
  mu - gamma - lambd.

(** ** The fractal dimension (lines 47-58)

    The arguments carry their representation: the division of the last
    branch raises on built-in floats and returns inf or nan on
    numpy.float64. *)
Definition FractalDimension3DODE (LCE1 LCE2 LCE3 : pynum) : outcome pynum :=
  let Err := lit 0.01 in
  if value LCE1 <? - Err then
    Returns (PyNum PyFloat (lit 0.0))
  else if fabs (value LCE1) <=? Err then
    if value LCE2 <? - Err then
      Returns (PyNum PyFloat (lit 1.0))
    else
      Returns (PyNum PyFloat (lit 2.0))
  else
    q <- py_truediv (py_add LCE1 LCE2) (py_abs LCE3) ;;
    Returns (py_add (PyNum PyFloat (lit 2.0)) q).

(** ** 3D fourth-order Runge-Kutta integrator (lines 61-77)

    The only divisors are the literals 2.0 and 6.0, so no step raises. *)

Definition field : Type := F -> F -> F -> F -> F -> F -> F -> F -> F -> F.

Definition RKThreeD (a b c d e i x y z : F) (f g h : field) (dt : F)
  : F * F * F :=
  let k1x := dt * f a b c d e i x y z in
  let k1y := dt * g a b c d e i x y z in
  let k1z := dt * h a b c d e i x y z in
  let k2x := dt * f a b c d e i (x + k1x / lit 2.0) (y + k1y / lit 2.0) (z + k1z / lit 2.0) in
  let k2y := dt * g a b c d e i (x + k1x / lit 2.0) (y + k1y / lit 2.0) (z + k1z / lit 2.0) in
  let k2z := dt * h a b c d e i (x + k1x / lit 2.0) (y + k1y / lit 2.0) (z + k1z / lit 2.0) in
  let k3x := dt * f a b c d e i (x + k2x / lit 2.0) (y + k2y / lit 2.0) (z + k2z / lit 2.0) in
  let k3y := dt * g a b c d e i (x + k2x / lit 2.0) (y + k2y / lit 2.0) (z + k2z / lit 2.0) in
  let k3z := dt * h a b c d e i (x + k2x / lit 2.0) (y + k2y / lit 2.0) (z + k2z / lit 2.0) in
  let k4x := dt * f a b c d e i (x + k3x) (y + k3y) (z + k3z) in
  let k4y := dt * g a b c d e i (x + k3x) (y + k3y) (z + k3z) in
  let k4z := dt * h a b c d e i (x + k3x) (y + k3y) (z + k3z) in
  let x := x + (k1x + lit 2.0 * k2x + lit 2.0 * k3x + k4x) / lit 6.0 in
  let y := y + (k1y + lit 2.0 * k2y + lit 2.0 * k3y + k4y) / lit 6.0 in
  let z := z + (k1z + lit 2.0 * k2z + lit 2.0 * k3z + k4z) / lit 6.0 in
  (x, y, z).

(** ** Tangent space flow (lines 80-96) *)

Definition tfield : Type :=
  F -> F -> F -> F -> F -> F -> F -> F -> F -> F -> F -> F -> F.

Definition TangentFlowRKThreeD (a b c d e i x y z : F) (df dg dh : tfield)
  (dx dy dz dt : F) : F * F * F :=
  let k1x := dt * df a b c d e i x y z dx dy dz in
  let k1y := dt * dg a b c d e i x y z dx dy dz in
  let k1z := dt * dh a b c d e i x y z dx dy dz in
  let k2x := dt * df a b c d e i x y z (dx + k1x / lit 2.0) (dy + k1y / lit 2.0) (dz + k1z / lit 2.0) in
  let k2y := dt * dg a b c d e i x y z (dx + k1x / lit 2.0) (dy + k1y / lit 2.0) (dz + k1z / lit 2.0) in
  let k2z := dt * dh a b c d e i x y z (dx + k1x / lit 2.0) (dy + k1y / lit 2.0) (dz + k1z / lit 2.0) in
  let k3x := dt * df a b c d e i x y z (dx + k2x / lit 2.0) (dy + k2y / lit 2.0) (dz + k2z / lit 2.0) in
  let k3y := dt * dg a b c d e i x y z (dx + k2x / lit 2.0) (dy + k2y / lit 2.0) (dz + k2z / lit 2.0) in
  let k3z := dt * dh a b c d e i x y z (dx + k2x / lit 2.0) (dy + k2y / lit 2.0) (dz + k2z / lit 2.0) in
  let k4x := dt * df a b c d e i x y z (dx + k3x) (dy + k3y) (dz + k3z) in
  let k4y := dt * dg a b c d e i x y z (dx + k3x) (dy + k3y) (dz + k3z) in
  let k4z := dt * dh a b c d e i x y z (dx + k3x) (dy + k3y) (dz + k3z) in
  let dx := dx + (k1x + lit 2.0 * k2x + lit 2.0 * k3x + k4x) / lit 6.0 in
  let dy := dy + (k1y + lit 2.0 * k2y + lit 2.0 * k3y + k4y) / lit 6.0 in
  let dz := dz + (k1z + lit 2.0 * k2z + lit 2.0 * k3z + k4z) / lit 6.0 in
  (dx, dy, dz).

End Numeric.

Arguments pynum F : clear implicits.

(** ** The script (lines 98-263)

    The module-level constants are gathered in [Config]; [LorenzConfig]
    holds the values the script assigns.  [nTransients] and [nIterates] are
    assigned twice: lines 110 and 112 for the plotted orbit
    ([nTransients0], [nIterates0]), lines 137 and 140 for the estimation. *)

Record Config (F : Type) : Type := {
  dt : F;
  alpha : F; gamma : F; mu : F; beta : F; delta : F; lambd : F;
  nTransients0 : nat;
  nIterates0 : nat;
  nTransients : nat;
  nIterates : nat;
  nItsPerPB : nat
}.

Definition LorenzConfig {F} `{Arith F} : Config F := {|
  dt := lit 0.01;
  alpha := lit 5; gamma := lit 1; mu := lit 2.2;
  beta := lit 8; delta := lit 1; lambd := lit 6.39;
  nTransients0 := 100;
  nIterates0 := 10000;
  nTransients := 100;
  nIterates := 1000;
  nItsPerPB := 10
|}.

(** What the script prints and plots. *)
Record Output (F : Type) : Type := {
  orbit : list F * list F * list F;   (* x, y, z *)
  LCEs : pynum F * pynum F * pynum F;
  Contraction : F;
  FractalDimension : pynum F
}.

Section Script.

Context {F : Type} `{Arith F}.
Variable log : F -> F.        (* log, from pylab: returns a numpy.float64 *)
Variable cfg : Config F.
Local Open Scope py_scope.

(** State and the three tangent vectors. *)
Definition Tangents : Type := V3 F * V3 F * V3 F * V3 F.

(** State, tangent vectors, and the running sums LCE1, LCE2, LCE3. *)
Definition Estimation : Type := Tangents * (pynum F * pynum F * pynum F).

Definition advance (s : V3 F) : V3 F :=
  let '(xState, yState, zState) := s in
  RKThreeD (alpha cfg) (gamma cfg) (mu cfg) (beta cfg) (delta cfg) (lambd cfg)
    xState yState zState LorenzXDot LorenzYDot LorenzZDot (dt cfg).

Definition advanceTangent (s e : V3 F) : V3 F :=
  let '(xState, yState, zState) := s in
  let '(ex, ey, ez) := e in
  TangentFlowRKThreeD (alpha cfg) (gamma cfg) (mu cfg) (beta cfg) (delta cfg)
    (lambd cfg) xState yState zState LorenzDXDot LorenzDYDot LorenzDZDot
    ex ey ez (dt cfg).

(** The initial condition (lines 115-117 and again 144-146). *)
Definition InitialState : V3 F := (lit 1.0, lit 1.0, lit 1.0).

(** The initial tangent vectors (lines 148-156). *)
Definition InitialTangents : V3 F * V3 F * V3 F :=
  ((lit 1.0, lit 0.0, lit 0.0),
   (lit 0.0, lit 1.0, lit 0.0),
   (lit 0.0, lit 0.0, lit 1.0)).

(** Lines 119-121: iterate for some number of transients. *)
Definition TransientLoop (s : V3 F) : V3 F :=
  for_range_pure (nTransients0 cfg) advance s.

(** Lines 126-133: the body reads x[n], y[n], z[n] and appends. *)
Definition OrbitBody (n : nat) (o : list F * list F * list F)
  : outcome (list F * list F * list F) :=
  let '(x, y, z) := o in
  match nth_error x n, nth_error y n, nth_error z n with
  | Some xn, Some yn, Some zn =>
      let '(xt, yt, zt) := advance (xn, yn, zn) in
      Returns (x ++ [xt], y ++ [yt], z ++ [zt])
  | _, _, _ => Raises IndexError
  end.

(** for n in range(n, n + count) *)
Fixpoint OrbitLoop (n count : nat) (o : list F * list F * list F)
  : outcome (list F * list F * list F) :=
  match count with
  | O => Returns o
  | S count' => o' <- OrbitBody n o ;; OrbitLoop (S n) count' o'
  end.

(** Lines 161-171 and 205-215: one integrator step of the state, then of
    each tangent vector at the new state. *)
Definition InnerStep (t : Tangents) : Tangents :=
  let '(s, e1, e2, e3) := t in
  let s := advance s in
  let e1 := advanceTangent s e1 in
  let e2 := advanceTangent s e2 in
  let e3 := advanceTangent s e3 in
  (s, e1, e2, e3).

Definition InnerLoop (t : Tangents) : Tangents :=
  for_range_pure (nItsPerPB cfg) InnerStep t.

(** Lines 172-197: the pull-back of the alignment loop.  [d] is the
    result of numpy's sqrt, a numpy.float64, so every division here is a
    numpy division. *)
Definition AlignPullBack (e1 e2 e3 : V3 F) : outcome (V3 F * V3 F * V3 F) :=
  let '(e1x, e1y, e1z) := e1 in
  let '(e2x, e2y, e2z) := e2 in
  let '(e3x, e3y, e3z) := e3 in
  let d := fsqrt (e1x * e1x + e1y * e1y + e1z * e1z) in
  e1x <- truediv NpFloat64 e1x d ;;
  e1y <- truediv NpFloat64 e1y d ;;
  e1z <- truediv NpFloat64 e1z d ;;
  let dote1e2 := e1x * e2x + e1y * e2y + e1z * e2z in
  let e2x := e2x - dote1e2 * e1x in
  let e2y := e2y - dote1e2 * e1y in
  let e2z := e2z - dote1e2 * e1z in
  let d := fsqrt (e2x * e2x + e2y * e2y + e2z * e2z) in
  e2x <- truediv NpFloat64 e2x d ;;
  e2y <- truediv NpFloat64 e2y d ;;
  e2z <- truediv NpFloat64 e2z d ;;
  let dote1e3 := e1x * e3x + e1y * e3y + e1z * e3z in
  let dote2e3 := e2x * e3x + e2y * e3y + e2z * e3z in
  let e3x := e3x - (dote1e3 * e1x + dote2e3 * e2x) in
  let e3y := e3y - (dote1e3 * e1y + dote2e3 * e2y) in
  let e3z := e3z - (dote1e3 * e1z + dote2e3 * e2z) in
  let d := fsqrt (e3x * e3x + e3y * e3y + e3z * e3z) in
  e3x <- truediv NpFloat64 e3x d ;;
  e3y <- truediv NpFloat64 e3y d ;;
  e3z <- truediv NpFloat64 e3z d ;;
  Returns ((e1x, e1y, e1z), (e2x, e2y, e2z), (e3x, e3y, e3z)).

(** Lines 216-247: the pull-back of the accumulation loop, which also
    adds log(d) to the running sums. *)
Definition PullBack (e1 e2 e3 : V3 F) (LCE1 LCE2 LCE3 : pynum F)
  : outcome (V3 F * V3 F * V3 F * (pynum F * pynum F * pynum F)) :=
  let '(e1x, e1y, e1z) := e1 in
  let '(e2x, e2y, e2z) := e2 in
  let '(e3x, e3y, e3z) := e3 in
  let d := fsqrt (e1x * e1x + e1y * e1y + e1z * e1z) in
  e1x <- truediv NpFloat64 e1x d ;;
  e1y <- truediv NpFloat64 e1y d ;;
  e1z <- truediv NpFloat64 e1z d ;;
  let LCE1 := py_add LCE1 (PyNum NpFloat64 (log d)) in
  let dote1e2 := e1x * e2x + e1y * e2y + e1z * e2z in
  let e2x := e2x - dote1e2 * e1x in
  let e2y := e2y - dote1e2 * e1y in
  let e2z := e2z - dote1e2 * e1z in
  let d := fsqrt (e2x * e2x + e2y * e2y + e2z * e2z) in
  e2x <- truediv NpFloat64 e2x d ;;
  e2y <- truediv NpFloat64 e2y d ;;
  e2z <- truediv NpFloat64 e2z d ;;
  let LCE2 := py_add LCE2 (PyNum NpFloat64 (log d)) in
  let dote1e3 := e1x * e3x + e1y * e3y + e1z * e3z in
  let dote2e3 := e2x * e3x + e2y * e3y + e2z * e3z in
  let e3x := e3x - (dote1e3 * e1x + dote2e3 * e2x) in
  let e3y := e3y - (dote1e3 * e1y + dote2e3 * e2y) in
  let e3z := e3z - (dote1e3 * e1z + dote2e3 * e2z) in
  let d := fsqrt (e3x * e3x + e3y * e3y + e3z * e3z) in
  e3x <- truediv NpFloat64 e3x d ;;
  e3y <- truediv NpFloat64 e3y d ;;
  e3z <- truediv NpFloat64 e3z d ;;
  let LCE3 := py_add LCE3 (PyNum NpFloat64 (log d)) in
  Returns ((e1x, e1y, e1z), (e2x, e2y, e2z), (e3x, e3y, e3z), (LCE1, LCE2, LCE3)).

(** Lines 159-197: one iteration of the alignment loop. *)
Definition AlignBody (t : Tangents) : outcome Tangents :=
  let '(s, e1, e2, e3) := InnerLoop t in
  ' (e1, e2, e3) <- AlignPullBack e1 e2 e3 ;;
  Returns (s, e1, e2, e3).

Definition AlignLoop (t : Tangents) : outcome Tangents :=
  for_range (nTransients cfg) AlignBody t.

(** Lines 203-247: one iteration of the accumulation loop. *)
Definition AccumulateBody (a : Estimation) : outcome Estimation :=
  let '(t, (LCE1, LCE2, LCE3)) := a in
  let '(s, e1, e2, e3) := InnerLoop t in
  ' (e1, e2, e3, sums) <- PullBack e1 e2 e3 LCE1 LCE2 LCE3 ;;
  Returns (s, e1, e2, e3, sums).

Definition AccumulateLoop (a : Estimation) : outcome Estimation :=
  for_range (nIterates cfg) AccumulateBody a.

(** Lines 250-253. *)
Definition IntegrationTime : F :=
  dt cfg * float_of_nat (nItsPerPB cfg) * float_of_nat (nIterates cfg).

Definition Convert (sums : pynum F * pynum F * pynum F)
  : outcome (pynum F * pynum F * pynum F) :=
  let '(LCE1, LCE2, LCE3) := sums in
  LCE1 <- py_truediv LCE1 (PyNum PyFloat IntegrationTime) ;;
  LCE2 <- py_truediv LCE2 (PyNum PyFloat IntegrationTime) ;;
  LCE3 <- py_truediv LCE3 (PyNum PyFloat IntegrationTime) ;;
  Returns (LCE1, LCE2, LCE3).

(** Lines 143-253: the estimation from a state and tangent vectors; the
    running sums start at the float 0.0 (lines 200-202). *)
Definition Estimate (s : V3 F) (e : V3 F * V3 F * V3 F)
  : outcome (pynum F * pynum F * pynum F) :=
  let '(e1, e2, e3) := e in
  t <- AlignLoop (s, e1, e2, e3) ;;
  let zero := PyNum PyFloat (lit 0.0) in
  ' (_, sums) <- AccumulateLoop (t, (zero, zero, zero)) ;;
  Convert sums.

(** Lines 114-133: the transient loop and the stored orbit. *)
Definition OrbitSegment : outcome (V3 F * (list F * list F * list F)) :=
  let State := InitialState in
  let State := TransientLoop State in
  let '(xState, yState, zState) := State in
  o <- OrbitLoop 0 (nIterates0 cfg) ([xState], [yState], [zState]) ;;
  Returns (State, o).

(** Lines 143-156: xState, yState, zState are assigned the initial
    condition again, and the tangent vectors are created.  [State] is the
    value the three variables hold before these assignments. *)
Definition Reinitialize (State : V3 F) : Tangents :=
  let State := InitialState in
  let '(e1, e2, e3) := InitialTangents in
  (State, e1, e2, e3).

(** The value of xState, yState, zState in a [Tangents]. *)
Definition StateOf (t : Tangents) : V3 F :=
  let '(s, _, _, _) := t in s.

(** Lines 257-263: the printed report. *)
Definition Report (o : list F * list F * list F)
  (lces : pynum F * pynum F * pynum F) : outcome (Output F) :=
  let '(LCE1, LCE2, LCE3) := lces in
  let contraction :=
    LorenzODETrJac (alpha cfg) (gamma cfg) (mu cfg) (beta cfg) (delta cfg)
      (lambd cfg) (lit 0.0) (lit 0.0) (lit 0.0) in
  fd <- FractalDimension3DODE LCE1 LCE2 LCE3 ;;
  Returns {| orbit := o; LCEs := lces; Contraction := contraction;
             FractalDimension := fd |}.

(** The whole script. *)
Definition script : outcome (Output F) :=
  ' (State, o) <- OrbitSegment ;;
  let '(State, e1, e2, e3) := Reinitialize State in
  lces <- Estimate State (e1, e2, e3) ;;
  Report o lces.

End Script.

(** ** Vocabulary of the specification

    Vector operations and the two schemes the specification names, the
    classical Runge-Kutta step and Gram-Schmidt orthonormalization, written
    on vectors.  They are compared with the code below. *)

Section Vectors.

Context {F : Type} `{Arith F}.
Local Open Scope py_scope.

Definition vadd (u v : V3 F) : V3 F :=
  let '(ux, uy, uz) := u in
  let '(vx, vy, vz) := v in
  (ux + vx, uy + vy, uz + vz).

Definition vsub (u v : V3 F) : V3 F :=
  let '(ux, uy, uz) := u in
  let '(vx, vy, vz) := v in
  (ux - vx, uy - vy, uz - vz).

Definition vscale (c : F) (v : V3 F) : V3 F :=
  let '(vx, vy, vz) := v in
  (c * vx, c * vy, c * vz).

Definition vdiv (v : V3 F) (c : F) : V3 F :=
  let '(vx, vy, vz) := v in
  (vx / c, vy / c, vz / c).

Definition dot (u v : V3 F) : F :=
  let '(ux, uy, uz) := u in
  let '(vx, vy, vz) := v in
  ux * vx + uy * vy + uz * vz.

Definition norm (v : V3 F) : F := fsqrt (dot v v).

(** One classical fourth-order Runge-Kutta step of the field [D]. *)
Definition classical_RK4 (D : V3 F -> V3 F) (dt : F) (state : V3 F) : V3 F :=
  let k1 := vscale dt (D state) in
  let k2 := vscale dt (D (vadd state (vdiv k1 (lit 2.0)))) in
  let k3 := vscale dt (D (vadd state (vdiv k2 (lit 2.0)))) in
  let k4 := vscale dt (D (vadd state k3)) in
  vadd state
    (vdiv (vadd (vadd (vadd k1 (vscale (lit 2.0) k2)) (vscale (lit 2.0) k3)) k4)
       (lit 6.0)).

(** The projection of [v] onto the unit vector [q]. *)
Definition projection (q v : V3 F) : V3 F := vscale (dot q v) q.

(** Vector [v] after subtraction of its projections onto the vectors of
    [qs]. *)
Definition remove_projections (qs : list (V3 F)) (v : V3 F) : V3 F :=
  match qs with
  | [] => v
  | q :: qs' =>
      vsub v (fold_left (fun acc q' => vadd acc (projection q' v)) qs'
                (projection q v))
  end.

(** Gram-Schmidt in index order: the orthonormalized vectors and the
    normalization factors. *)
Definition GramSchmidt (v0 v1 v2 : V3 F)
  : (V3 F * V3 F * V3 F) * (F * F * F) :=
  let factor0 := norm v0 in
  let q0 := vdiv v0 factor0 in
  let w1 := remove_projections [q0] v1 in
  let factor1 := norm w1 in
  let q1 := vdiv w1 factor1 in
  let w2 := remove_projections [q0; q1] v2 in
  let factor2 := norm w2 in
  let q2 := vdiv w2 factor2 in
  ((q0, q1, q2), (factor0, factor1, factor2)).

(** The three derivatives of a field as one vector-valued function. *)
Definition as_field (a b c d e i : F) (f g h : field) (s : V3 F) : V3 F :=
  let '(x, y, z) := s in
  (f a b c d e i x y z, g a b c d e i x y z, h a b c d e i x y z).

(** A linearized derivative with its base point fixed at (x, y, z). *)
Definition frozen_at (x y z : F) (df : tfield) : field :=
  fun a b c d e i dx dy dz => df a b c d e i x y z dx dy dz.

(** The field run backwards. *)
Definition reversed (f : field) : field :=
  fun a b c d e i x y z => fneg (f a b c d e i x y z).

End Vectors.

(** Over the reals. *)
Definition linearly_independent (v0 v1 v2 : V3 R) : Prop :=
  forall a b c : R,
    vadd (vadd (vscale a v0) (vscale b v1)) (vscale c v2) = (0, 0, 0)%R ->
    a = 0%R /\ b = 0%R /\ c = 0%R.

Definition orthonormal (q0 q1 q2 : V3 R) : Prop :=
  norm q0 = 1%R /\ norm q1 = 1%R /\ norm q2 = 1%R /\
  dot q0 q1 = 0%R /\ dot q0 q2 = 0%R /\ dot q1 q2 = 0%R.

(** ** Vocabulary of the estimation *)

Section Intervals.

Context {F : Type} `{Arith F}.
Variable log : F -> F.
Variable cfg : Config F.
Local Open Scope py_scope.

Definition comp1 (f : F * F * F) : F := let '(a, _, _) := f in a.
Definition comp2 (f : F * F * F) : F := let '(_, b, _) := f in b.
Definition comp3 (f : F * F * F) : F := let '(_, _, c) := f in c.

(** One pull-back interval: nItsPerPB integrator steps, then Gram-Schmidt.
    The new state and tangent vectors, and the three factors. *)
Definition Interval (t : Tangents) : Tangents * (F * F * F) :=
  let '(s, e1, e2, e3) := InnerLoop cfg t in
  let '((q0, q1, q2), factors) := GramSchmidt e1 e2 e3 in
  ((s, q0, q1, q2), factors).

(** The factors of [n] successive intervals from [t]. *)
Fixpoint FactorTrace (n : nat) (t : Tangents) : list (F * F * F) :=
  match n with
  | O => []
  | S n' => let '(t', f) := Interval t in f :: FactorTrace n' t'
  end.

(** 0.0 + log(f_1[k]) + ... + log(f_n[k]), summed in this order. *)
Definition sum_log (k : F * F * F -> F) (fs : list (F * F * F)) : F :=
  fold_left (fun acc f => acc + log (k f)) fs (lit 0.0).

Definition record_log (k : F * F * F -> F) (L : pynum F) (f : F * F * F)
  : pynum F :=
  py_add L (PyNum NpFloat64 (log (k f))).

End Intervals.

(** Python's -1, -2.0 and the like: a literal under unary minus. *)
Definition py_lit {F} `{Arith F} (q : Q) : pynum F := PyNum PyFloat (lit q).
Definition py_neg_lit {F} `{Arith F} (q : Q) : pynum F :=
  PyNum PyFloat (fneg (lit q)).

(** The linearized derivative of the Lorenz flow, on vectors. *)
Definition LorenzTangentDerivative (a b c d e i x y z : R) (w : V3 R) : V3 R :=
  let '(dx, dy, dz) := w in
  (LorenzDXDot a b c d e i x y z dx dy dz,
   LorenzDYDot a b c d e i x y z dx dy dz,
   LorenzDZDot a b c d e i x y z dx dy dz).

(** The tangent step of the Lorenz flow, on vectors. *)
Definition LorenzTangentStep (a b c d e i x y z dt : R) (w : V3 R) : V3 R :=
  let '(dx, dy, dz) := w in
  TangentFlowRKThreeD a b c d e i x y z
    LorenzDXDot LorenzDYDot LorenzDZDot dx dy dz dt.

(** ** Vocabulary of the further properties *)

Section FurtherVocabulary.

Context {F : Type} `{Arith F}.
Local Open Scope py_scope.

(** The reflection (x, y, z) |-> (x, -y, -z). *)
Definition mirror (s : V3 F) : V3 F :=
  let '(x, y, z) := s in (x, - y, - z).

(** A field that is linear and uncoupled: x' = a x, y' = b y, z' = c z. *)
Definition DecayX : field := fun a b c d e i x y z => a * x.
Definition DecayY : field := fun a b c d e i x y z => b * y.
Definition DecayZ : field := fun a b c d e i x y z => c * z.

(** The points s, advance s, advance (advance s), ...: [n] of them. *)
Definition trajectory (cfg : Config F) (n : nat) (s : V3 F) : list (V3 F) :=
  map (fun k => for_range_pure k (advance cfg) s) (seq 0 n).

(** The configuration with other counts for the plotted orbit. *)
Definition with_orbit_counts (cfg : Config F) (transients iterates : nat)
  : Config F := {|
  dt := dt cfg;
  alpha := alpha cfg; gamma := gamma cfg; mu := mu cfg;
  beta := beta cfg; delta := delta cfg; lambd := lambd cfg;
  nTransients0 := transients;
  nIterates0 := iterates;
  nTransients := nTransients cfg;
  nIterates := nIterates cfg;
  nItsPerPB := nItsPerPB cfg
|}.

(** The tangent vector [e] carried [n] integrator steps along the
    trajectory that starts at [s]. *)
Fixpoint tangent_along (cfg : Config F) (n : nat) (s e : V3 F) : V3 F :=
  match n with
  | O => e
  | S n' =>
      tangent_along cfg n' (advance cfg s) (advanceTangent cfg (advance cfg s) e)
  end.

(** The tangent vectors of [n] successive intervals from [t], each taken
    after the nItsPerPB integrator steps and before the pull-back. *)
Fixpoint EvolvedTrace (cfg : Config F) (n : nat) (t : Tangents)
  : list (V3 F * V3 F * V3 F) :=
  match n with
  | O => []
  | S n' =>
      let '(_, e1, e2, e3) := InnerLoop cfg t in
      (e1, e2, e3) :: EvolvedTrace cfg n' (fst (Interval cfg t))
  end.

(** What the script prints: the exponents, the contraction and the
    fractal dimension. *)
Definition printed (o : outcome (Output F))
  : outcome (pynum F * pynum F * pynum F * F * pynum F) :=
  out <- o ;; Returns (LCEs out, Contraction out, FractalDimension out).

End FurtherVocabulary.

(** The determinant of the matrix of three vectors. *)
Definition det3 (v0 v1 v2 : V3 R) : R :=
  let '(x0, y0, z0) := v0 in
  let '(x1, y1, z1) := v1 in
  let '(x2, y2, z2) := v2 in
  (x0 * (y1 * z2 - z1 * y2) - y0 * (x1 * z2 - z1 * x2)
   + z0 * (x1 * y2 - y1 * x2))%R.

(** The volume spanned by three tangent vectors. *)
Definition volume (e : V3 R * V3 R * V3 R) : R :=
  let '(e1, e2, e3) := e in Rabs (det3 e1 e2 e3).

Definition independent_triple (e : V3 R * V3 R * V3 R) : Prop :=
  let '(e1, e2, e3) := e in linearly_independent e1 e2 e3.

(** A configuration without coupling (alpha = beta = mu = delta = 0), with
    one alignment-free interval of one step. *)
Definition DecayConfig : Config R := {|
  dt := 1%R;
  alpha := 0%R; gamma := 1%R; mu := 0%R; beta := 0%R; delta := 0%R;
  lambd := 1%R;
  nTransients0 := 0;
  nIterates0 := 0;
  nTransients := 0;
  nIterates := 1;
  nItsPerPB := 1
|}.

(** 1 + u + u^2/2 + u^3/6 + u^4/24. *)
Definition taylor4 (u : R) : R :=
  (1 + u + u * u / 2 + u * u * u / 6 + u * u * u * u / 24)%R.

(** The Lorenz field, on vectors. *)
Definition LorenzField (a b c d e i : R) (s : V3 R) : V3 R :=
  as_field a b c d e i LorenzXDot LorenzYDot LorenzZDot s.

(** One integrator step of the Lorenz flow, on vectors. *)
Definition LorenzStep (a b c d e i dt : R) (s : V3 R) : V3 R :=
  let '(x, y, z) := s in
  RKThreeD a b c d e i x y z LorenzXDot LorenzYDot LorenzZDot dt.

(** ** The integrator *)

Section IntegratorFacts.

Context {F : Type} `{Arith F}.

(** C1: for every state, step size and derivative triple, RKThreeD is the
    classical fourth-order Runge-Kutta step: stages at the state, the
    state plus half of k1, plus half of k2, and plus k3, each scaled by dt,
    combined as state + (k1 + 2 k2 + 2 k3 + k4) / 6 componentwise.  This
    holds in every arithmetic, with the operations in the order written. *)
Theorem RKThreeD_is_classical_RK4 :
  forall (a b c d e i x y z : F) (f g h : field) (dt : F),
    RKThreeD a b c d e i x y z f g h dt
    = classical_RK4 (as_field a b c d e i f g h) dt (x, y, z).
Proof.
  intros. unfold classical_RK4, as_field, RKThreeD.
  cbn [vadd vscale vdiv]. reflexivity.
Qed.

End IntegratorFacts.

Section TangentFacts.

Context {F : Type} `{Arith F}.

(** Loops with bodies that agree on every state agree. *)
Lemma for_range_pure_ext {S} (f g : S -> S) :
  (forall s, f s = g s) ->
  forall n s, for_range_pure n f s = for_range_pure n g s.
Proof.
  intros Hfg n. induction n as [| n IH]; intros s.
  - reflexivity.
  - cbn [for_range_pure]. rewrite Hfg. apply IH.
Qed.

(** C2: TangentFlowRKThreeD is the same four-stage scheme as RKThreeD,
    applied to the tangent vector with the linearized derivative evaluated
    at the one state (x, y, z) it is given, in all four stages; and in each
    inner step of the alignment and accumulation loops that state is the
    triple the call of RKThreeD just before has returned, for each of the
    three calls of TangentFlowRKThreeD. *)
Theorem TangentFlowRKThreeD_fixed_state :
  (forall (a b c d e i x y z : F) (df dg dh : tfield) (dx dy dz dt : F),
      TangentFlowRKThreeD a b c d e i x y z df dg dh dx dy dz dt
      = RKThreeD a b c d e i dx dy dz
          (frozen_at x y z df) (frozen_at x y z dg) (frozen_at x y z dh) dt
      /\ TangentFlowRKThreeD a b c d e i x y z df dg dh dx dy dz dt
         = classical_RK4
             (as_field a b c d e i
                (frozen_at x y z df) (frozen_at x y z dg) (frozen_at x y z dh))
             dt (dx, dy, dz))
  /\ (forall (log : F -> F) (cfg : Config F) (t : Tangents)
        (LCE1 LCE2 LCE3 : pynum F),
         let step := fun t : Tangents =>
           let '((x, y, z), (e1x, e1y, e1z), (e2x, e2y, e2z), (e3x, e3y, e3z))
             := t in
           let '(x', y', z') :=
             RKThreeD (alpha cfg) (gamma cfg) (mu cfg) (beta cfg) (delta cfg)
               (lambd cfg) x y z LorenzXDot LorenzYDot LorenzZDot (dt cfg) in
           ((x', y', z'),
            TangentFlowRKThreeD (alpha cfg) (gamma cfg) (mu cfg) (beta cfg)
              (delta cfg) (lambd cfg) x' y' z'
              LorenzDXDot LorenzDYDot LorenzDZDot e1x e1y e1z (dt cfg),
            TangentFlowRKThreeD (alpha cfg) (gamma cfg) (mu cfg) (beta cfg)
              (delta cfg) (lambd cfg) x' y' z'
              LorenzDXDot LorenzDYDot LorenzDZDot e2x e2y e2z (dt cfg),
            TangentFlowRKThreeD (alpha cfg) (gamma cfg) (mu cfg) (beta cfg)
              (delta cfg) (lambd cfg) x' y' z'
              LorenzDXDot LorenzDYDot LorenzDZDot e3x e3y e3z (dt cfg)) in
         InnerStep cfg t = step t
         /\ InnerLoop cfg t = for_range_pure (nItsPerPB cfg) step t
         /\ AlignBody cfg t
            = (let '(s, e1, e2, e3) := for_range_pure (nItsPerPB cfg) step t in
               ' (e1, e2, e3) <- AlignPullBack e1 e2 e3 ;;
               Returns (s, e1, e2, e3))
         /\ AccumulateBody log cfg (t, (LCE1, LCE2, LCE3))
            = (let '(s, e1, e2, e3) := for_range_pure (nItsPerPB cfg) step t in
               ' (e1, e2, e3, sums) <- PullBack log e1 e2 e3 LCE1 LCE2 LCE3 ;;
               Returns (s, e1, e2, e3, sums))).
Proof.
  split.
  - intros. split.
    + reflexivity.
    + unfold classical_RK4, as_field, frozen_at, TangentFlowRKThreeD.
      cbn [vadd vscale vdiv]. reflexivity.
  - intros log cfg t LCE1 LCE2 LCE3 step.
    assert (Hstep : forall u : Tangents, InnerStep cfg u = step u).
    { intros [[[[[x y] z] [[e1x e1y] e1z]] [[e2x e2y] e2z]] [[e3x e3y] e3z]].
      unfold InnerStep, step, advance, advanceTangent.
      destruct (RKThreeD _ _ _ _ _ _ x y z _ _ _ _) as [[x' y'] z'].
      reflexivity. }
    assert (Hloop : InnerLoop cfg t = for_range_pure (nItsPerPB cfg) step t).
    { unfold InnerLoop. apply for_range_pure_ext, Hstep. }
    split; [apply Hstep |]. split; [exact Hloop |].
    unfold AlignBody, AccumulateBody. rewrite Hloop.
    split; reflexivity.
Qed.

End TangentFacts.

Local Open Scope R_scope.

(** Equality of two triples, component by component. *)
Ltac vec3_eq := apply f_equal2; [apply f_equal2 |].

(** The literals of the script, as reals. *)
Lemma lit_R_2 : lit (F:=R) 2.0 = 2.
Proof. cbn. unfold Q2R. cbn. lra. Qed.

Lemma lit_R_6 : lit (F:=R) 6.0 = 6.
Proof. cbn. unfold Q2R. cbn. lra. Qed.

Lemma lit_R_0 : lit (F:=R) 0.0 = 0.
Proof. cbn. unfold Q2R. cbn. lra. Qed.

Lemma lit_R_1 : lit (F:=R) 1.0 = 1.
Proof. cbn. unfold Q2R. cbn. lra. Qed.

Lemma lit_R_Err : lit (F:=R) 0.01 = 1 / 100.
Proof. cbn. unfold Q2R. cbn. lra. Qed.

(** C10: for fixed parameters, base state and step size, the tangent step
    of the Lorenz flow is a linear map of the tangent vector over the reals:
    it commutes with sums and with scalar multiples, as each of LorenzDXDot,
    LorenzDYDot, LorenzDZDot does in (dx, dy, dz). *)
Theorem TangentFlowRKThreeD_linear :
  forall (a b c d e i x y z dt : R) (u v : V3 R) (k : R),
    (LorenzTangentStep a b c d e i x y z dt (vadd u v)
     = vadd (LorenzTangentStep a b c d e i x y z dt u)
            (LorenzTangentStep a b c d e i x y z dt v)
     /\ LorenzTangentStep a b c d e i x y z dt (vscale k u)
        = vscale k (LorenzTangentStep a b c d e i x y z dt u))
    /\ (LorenzTangentDerivative a b c d e i x y z (vadd u v)
        = vadd (LorenzTangentDerivative a b c d e i x y z u)
               (LorenzTangentDerivative a b c d e i x y z v)
        /\ LorenzTangentDerivative a b c d e i x y z (vscale k u)
           = vscale k (LorenzTangentDerivative a b c d e i x y z u)).
Proof.
  intros a b c d e i x y z dt [[ux uy] uz] [[vx vy] vz] k.
  unfold LorenzTangentStep, LorenzTangentDerivative, TangentFlowRKThreeD,
    LorenzDXDot, LorenzDYDot, LorenzDZDot.
  cbn [vadd vscale].
  rewrite lit_R_2, lit_R_6.
  cbn [fadd fsub fmul fdiv R_Arith].
  split; split; vec3_eq; field.
Qed.

(** ** The pull-back *)

(** In every arithmetic the pull-back block computes Gram-Schmidt in
    index order and adds the logarithm of each factor to its running sum;
    no division of the block raises. *)
Lemma PullBack_GramSchmidt {F} `{Arith F} (log : F -> F) :
  forall (e1 e2 e3 : V3 F) (LCE1 LCE2 LCE3 : pynum F),
    PullBack log e1 e2 e3 LCE1 LCE2 LCE3
    = let '((q0, q1, q2), (factor0, factor1, factor2)) := GramSchmidt e1 e2 e3 in
      Returns (q0, q1, q2,
               (py_add LCE1 (PyNum NpFloat64 (log factor0)),
                py_add LCE2 (PyNum NpFloat64 (log factor1)),
                py_add LCE3 (PyNum NpFloat64 (log factor2)))).
Proof.
  intros [[e1x e1y] e1z] [[e2x e2y] e2z] [[e3x e3y] e3z] LCE1 LCE2 LCE3.
  reflexivity.
Qed.

Lemma AlignPullBack_GramSchmidt {F} `{Arith F} :
  forall (e1 e2 e3 : V3 F),
    AlignPullBack e1 e2 e3 = Returns (fst (GramSchmidt e1 e2 e3)).
Proof.
  intros [[e1x e1y] e1z] [[e2x e2y] e2z] [[e3x e3y] e3z].
  reflexivity.
Qed.

Section RealVectors.

Implicit Types u v w q : V3 R.

Lemma dot_self_nonneg v : 0 <= dot v v.
Proof. destruct v as [[x y] z]. cbn. nra. Qed.

Lemma norm_sqr v : norm v * norm v = dot v v.
Proof. unfold norm. cbn [fsqrt R_Arith]. apply sqrt_sqrt, dot_self_nonneg. Qed.

Lemma dot_self_zero v : dot v v = 0 -> v = (0, 0, 0).
Proof.
  destruct v as [[x y] z]. cbn. intros Hd.
  assert (x = 0) by nra. assert (y = 0) by nra. assert (z = 0) by nra.
  subst. reflexivity.
Qed.

Lemma norm_nonzero v : v <> (0, 0, 0) -> norm v <> 0.
Proof.
  intros Hv Hn. apply Hv, dot_self_zero.
  rewrite <- norm_sqr, Hn. lra.
Qed.

Lemma dot_vdiv_l u v c : dot (vdiv u c) v = dot u v / c.
Proof.
  destruct u as [[ux uy] uz], v as [[vx vy] vz]. cbn.
  unfold Rdiv. ring.
Qed.

Lemma dot_vdiv_r u v c : dot u (vdiv v c) = dot u v / c.
Proof.
  destruct u as [[ux uy] uz], v as [[vx vy] vz]. cbn.
  unfold Rdiv. ring.
Qed.

Lemma dot_vsub_r q u w : dot q (vsub u w) = dot q u - dot q w.
Proof.
  destruct q as [[qx qy] qz], u as [[ux uy] uz], w as [[wx wy] wz]. cbn. ring.
Qed.

Lemma dot_vadd_r q u w : dot q (vadd u w) = dot q u + dot q w.
Proof.
  destruct q as [[qx qy] qz], u as [[ux uy] uz], w as [[wx wy] wz]. cbn. ring.
Qed.

Lemma dot_vscale_r q c w : dot q (vscale c w) = c * dot q w.
Proof.
  destruct q as [[qx qy] qz], w as [[wx wy] wz]. cbn. ring.
Qed.

Lemma dot_comm u v : dot u v = dot v u.
Proof.
  destruct u as [[ux uy] uz], v as [[vx vy] vz]. cbn. ring.
Qed.

(** A nonzero vector divided by its norm is a unit vector. *)
Lemma normalized_unit v : v <> (0, 0, 0) -> dot (vdiv v (norm v)) (vdiv v (norm v)) = 1.
Proof.
  intros Hv. rewrite dot_vdiv_l, dot_vdiv_r, <- norm_sqr.
  field. apply norm_nonzero, Hv.
Qed.

Lemma unit_norm q : dot q q = 1 -> norm q = 1.
Proof. intros Hq. unfold norm. rewrite Hq. cbn. apply sqrt_1. Qed.

(** Removal of the projection onto a unit vector leaves nothing along it. *)
Lemma remove_one_orthogonal q v :
  dot q q = 1 -> dot q (remove_projections [q] v) = 0.
Proof.
  intros Hq. cbn [remove_projections fold_left]. unfold projection.
  rewrite dot_vsub_r, dot_vscale_r, Hq. ring.
Qed.

Lemma remove_two_orthogonal q0 q1 v :
  dot q0 q0 = 1 -> dot q1 q1 = 1 -> dot q0 q1 = 0 ->
  dot q0 (remove_projections [q0; q1] v) = 0
  /\ dot q1 (remove_projections [q0; q1] v) = 0.
Proof.
  intros H0 H1 H01. cbn [remove_projections fold_left]. unfold projection.
  rewrite !dot_vsub_r, !dot_vadd_r, !dot_vscale_r.
  rewrite (dot_comm q1 q0), H0, H1, H01. split; ring.
Qed.

End RealVectors.

Section Independence.

Variables v0 v1 v2 : V3 R.
Hypothesis Hli : linearly_independent v0 v1 v2.

Lemma independent_first : v0 <> (0, 0, 0).
Proof.
  intros Hv. destruct (Hli 1 0 0) as [Ha _]; [| lra].
  rewrite Hv. destruct v1 as [[x1 y1] z1], v2 as [[x2 y2] z2]. cbn.
  vec3_eq; ring.
Qed.

Lemma independent_second :
  remove_projections [vdiv v0 (norm v0)] v1 <> (0, 0, 0).
Proof.
  pose proof (norm_nonzero independent_first) as N0.
  intros Hw. cbn [remove_projections fold_left] in Hw. unfold projection in Hw.
  remember (norm v0) as n0 eqn:E0. clear E0.
  remember (dot (vdiv v0 n0) v1) as k eqn:Ek. clear Ek.
  destruct (Hli (- (k / n0)) 1 0) as (_ & Hb & _); [| lra].
  rewrite <- Hw.
  destruct v0 as [[x0 y0] z0], v1 as [[x1 y1] z1], v2 as [[x2 y2] z2]. cbn.
  vec3_eq; field; exact N0.
Qed.

Lemma independent_third :
  let q0 := vdiv v0 (norm v0) in
  let w1 := remove_projections [q0] v1 in
  let q1 := vdiv w1 (norm w1) in
  remove_projections [q0; q1] v2 <> (0, 0, 0).
Proof.
  pose proof (norm_nonzero independent_first) as N0.
  pose proof (norm_nonzero independent_second) as N1.
  cbv zeta. intros Hw.
  cbn [remove_projections fold_left] in Hw, N1. unfold projection in Hw, N1.
  remember (norm v0) as n0 eqn:E0. clear E0.
  remember (dot (vdiv v0 n0) v1) as k eqn:Ek. clear Ek.
  remember (norm (vsub v1 (vscale k (vdiv v0 n0)))) as n1 eqn:E1. clear E1.
  remember (dot (vdiv v0 n0) v2) as k0 eqn:Ek0. clear Ek0.
  remember (dot (vdiv (vsub v1 (vscale k (vdiv v0 n0))) n1) v2) as k1 eqn:Ek1.
  clear Ek1.
  destruct (Hli (- (k0 / n0) + k1 * k / (n0 * n1)) (- (k1 / n1)) 1)
    as (_ & _ & Hc); [| lra].
  rewrite <- Hw.
  destruct v0 as [[x0 y0] z0], v1 as [[x1 y1] z1], v2 as [[x2 y2] z2]. cbn.
  vec3_eq; field; split; assumption.
Qed.

(** Gram-Schmidt of an independent triple is orthonormal. *)
Lemma GramSchmidt_orthonormal :
  let '(q0, q1, q2) := fst (GramSchmidt v0 v1 v2) in orthonormal q0 q1 q2.
Proof.
  unfold GramSchmidt. cbn [fst].
  pose proof (normalized_unit independent_first) as U0.
  pose proof (normalized_unit independent_second) as U1.
  pose proof (normalized_unit independent_third) as U2.
  set (q0 := vdiv v0 (norm v0)) in *.
  set (w1 := remove_projections [q0] v1) in *.
  set (q1 := vdiv w1 (norm w1)) in *.
  set (w2 := remove_projections [q0; q1] v2) in *.
  pose proof (remove_one_orthogonal q0 v1 U0) as O01. fold w1 in O01.
  assert (H01 : dot q0 q1 = 0).
  { unfold q1. rewrite dot_vdiv_r, O01. unfold Rdiv. ring. }
  destruct (remove_two_orthogonal q0 q1 v2 U0 U1 H01) as [O02 O12].
  fold w2 in O02, O12.
  unfold orthonormal. repeat split.
  - apply unit_norm, U0.
  - apply unit_norm, U1.
  - apply unit_norm, U2.
  - exact H01.
  - rewrite dot_vdiv_r, O02. unfold Rdiv. ring.
  - rewrite dot_vdiv_r, O12. unfold Rdiv. ring.
Qed.

End Independence.

(** C3: over the reals, the pull-back block turns every linearly
    independent ordered triple of tangent vectors into an orthonormal
    triple in the same order, and the factor recorded for index k (the
    number whose logarithm is added to the running sum k) is the Euclidean
    norm of vector k after subtraction of its projections onto the
    normalized vectors before it, the vector that is then divided by that
    norm. *)
Theorem PullBack_orthonormal_factors :
  forall (log : R -> R) (v0 v1 v2 : V3 R) (LCE1 LCE2 LCE3 : pynum R),
    linearly_independent v0 v1 v2 ->
    exists q0 q1 q2 : V3 R,
      let w1 := remove_projections [q0] v1 in
      let w2 := remove_projections [q0; q1] v2 in
      PullBack log v0 v1 v2 LCE1 LCE2 LCE3
      = Returns (q0, q1, q2,
                 (py_add LCE1 (PyNum NpFloat64 (log (norm v0))),
                  py_add LCE2 (PyNum NpFloat64 (log (norm w1))),
                  py_add LCE3 (PyNum NpFloat64 (log (norm w2)))))
      /\ orthonormal q0 q1 q2
      /\ q0 = vdiv v0 (norm v0)
      /\ q1 = vdiv w1 (norm w1)
      /\ q2 = vdiv w2 (norm w2)
      /\ norm v0 <> 0 /\ norm w1 <> 0 /\ norm w2 <> 0.
Proof.
  intros log v0 v1 v2 LCE1 LCE2 LCE3 Hli.
  pose proof (GramSchmidt_orthonormal Hli) as Ho.
  pose proof (norm_nonzero (independent_first Hli)) as N0.
  pose proof (norm_nonzero (independent_second Hli)) as N1.
  pose proof (norm_nonzero (independent_third Hli)) as N2.
  rewrite PullBack_GramSchmidt.
  unfold GramSchmidt in *. cbn [fst] in Ho.
  eexists _, _, _. cbv zeta.
  split; [reflexivity |].
  split; [exact Ho |].
  repeat split; assumption.
Qed.

Lemma skew_basis_independent :
  linearly_independent (1, 1, 0) (0, 1, 1) (1, 0, 1).
Proof.
  intros a b c Heq. cbn in Heq. injection Heq as Hx Hy Hz.
  repeat split; lra.
Qed.

(** The pull-back of a basis that is not orthogonal. *)
Lemma PullBack_orthonormal_factors_witness :
  linearly_independent (1, 1, 0) (0, 1, 1) (1, 0, 1)
  /\ exists q0 q1 q2 : V3 R,
       let w1 := remove_projections [q0] (0, 1, 1) in
       let w2 := remove_projections [q0; q1] (1, 0, 1) in
       PullBack ln (1, 1, 0) (0, 1, 1) (1, 0, 1)
         (py_lit 0.0) (py_lit 0.0) (py_lit 0.0)
       = Returns (q0, q1, q2,
                  (py_add (py_lit 0.0) (PyNum NpFloat64 (ln (norm (1, 1, 0)))),
                   py_add (py_lit 0.0) (PyNum NpFloat64 (ln (norm w1))),
                   py_add (py_lit 0.0) (PyNum NpFloat64 (ln (norm w2)))))
       /\ orthonormal q0 q1 q2
       /\ q0 = vdiv (1, 1, 0) (norm (1, 1, 0))
       /\ q1 = vdiv w1 (norm w1)
       /\ q2 = vdiv w2 (norm w2)
       /\ norm (1, 1, 0) <> 0 /\ norm w1 <> 0 /\ norm w2 <> 0.
Proof.
  split; [exact skew_basis_independent |].
  apply (PullBack_orthonormal_factors ln
           (py_lit 0.0) (py_lit 0.0) (py_lit 0.0) skew_basis_independent).
Defined.

(** ** The estimation loops *)

Section Trace.

Context {F : Type} `{Arith F}.
Variable log : F -> F.
Variable cfg : Config F.
Local Open Scope py_scope.

Lemma for_range_returns {S} (body : S -> outcome S) (g : S -> S) :
  (forall s, body s = Returns (g s)) ->
  forall n s, for_range n body s = Returns (for_range_pure n g s).
Proof.
  intros Hb n. induction n as [| n IH]; intros s; cbn.
  - reflexivity.
  - rewrite Hb. cbn. apply IH.
Qed.

Lemma AlignBody_Interval t :
  AlignBody cfg t = Returns (fst (Interval cfg t)).
Proof.
  unfold AlignBody, Interval.
  destruct (InnerLoop cfg t) as [[[s e1] e2] e3].
  rewrite AlignPullBack_GramSchmidt.
  destruct (GramSchmidt e1 e2 e3) as [[[q0 q1] q2] fs]. reflexivity.
Qed.

Lemma AlignLoop_returns t :
  AlignLoop cfg t
  = Returns (for_range_pure (nTransients cfg) (fun t => fst (Interval cfg t)) t).
Proof. apply for_range_returns, AlignBody_Interval. Qed.

Lemma AccumulateBody_Interval t L1 L2 L3 :
  AccumulateBody log cfg (t, (L1, L2, L3))
  = Returns (fst (Interval cfg t),
             (record_log log comp1 L1 (snd (Interval cfg t)),
              record_log log comp2 L2 (snd (Interval cfg t)),
              record_log log comp3 L3 (snd (Interval cfg t)))).
Proof.
  unfold AccumulateBody, Interval.
  destruct (InnerLoop cfg t) as [[[s e1] e2] e3].
  rewrite PullBack_GramSchmidt.
  destruct (GramSchmidt e1 e2 e3) as [[[q0 q1] q2] [[f0 f1] f2]]. reflexivity.
Qed.

Lemma AccumulateLoop_trace n :
  forall t L1 L2 L3,
    for_range n (AccumulateBody log cfg) (t, (L1, L2, L3))
    = Returns (for_range_pure n (fun t => fst (Interval cfg t)) t,
               (fold_left (record_log log comp1) (FactorTrace cfg n t) L1,
                fold_left (record_log log comp2) (FactorTrace cfg n t) L2,
                fold_left (record_log log comp3) (FactorTrace cfg n t) L3)).
Proof.
  induction n as [| n IH]; intros t L1 L2 L3.
  - reflexivity.
  - cbn [for_range FactorTrace for_range_pure].
    rewrite AccumulateBody_Interval. cbn [bind]. rewrite IH.
    destruct (Interval cfg t) as [t' f]. reflexivity.
Qed.

Lemma FactorTrace_length n : forall t, length (FactorTrace cfg n t) = n.
Proof.
  induction n as [| n IH]; intros t; cbn.
  - reflexivity.
  - destruct (Interval cfg t) as [t' f]. cbn. now rewrite IH.
Qed.

(** Once a logarithm has been added, a running sum is a numpy.float64. *)
Lemma record_log_fold k fs :
  forall L,
    fold_left (record_log log k) fs L
    = PyNum (match fs with [] => kind L | _ :: _ => NpFloat64 end)
        (fold_left (fun acc f => acc + log (k f)) fs (value L)).
Proof.
  induction fs as [| f fs IH]; intros L.
  - destruct L. reflexivity.
  - cbn [fold_left]. rewrite IH. cbn.
    destruct fs; [destruct (kind L) |]; reflexivity.
Qed.

End Trace.

(** C4: at run end each exponent is its running sum, the sum over the
    nIterates pull-back intervals of the logarithm of that interval's
    factor, divided by dt * nItsPerPB * nIterates.  With at least one
    interval the sums are numpy.float64 and the division cannot raise. *)
Theorem LCE_is_sum_over_time :
  forall {F} `{Arith F} (log : F -> F) (cfg : Config F)
    (s : V3 F) (e : V3 F * V3 F * V3 F),
    (0 < nIterates cfg)%nat ->
    exists t0 : Tangents,
      AlignLoop cfg (s, fst (fst e), snd (fst e), snd e) = Returns t0 /\
      let factors := FactorTrace cfg (nIterates cfg) t0 in
      let T := (dt cfg * float_of_nat (nItsPerPB cfg)
                * float_of_nat (nIterates cfg))%py in
      length factors = nIterates cfg /\
      Estimate log cfg s e
      = Returns (PyNum NpFloat64 (sum_log log comp1 factors / T)%py,
                 PyNum NpFloat64 (sum_log log comp2 factors / T)%py,
                 PyNum NpFloat64 (sum_log log comp3 factors / T)%py).
Proof.
  intros F A log cfg s [[e1 e2] e3] Hn. cbn [fst snd].
  eexists. split; [apply AlignLoop_returns |].
  cbv zeta. split; [apply FactorTrace_length |].
  unfold Estimate. rewrite AlignLoop_returns. cbn [bind].
  unfold AccumulateLoop. rewrite AccumulateLoop_trace. cbn [bind].
  rewrite !record_log_fold. unfold sum_log, Convert, IntegrationTime.
  set (t0 := for_range_pure _ _ _).
  pose proof (FactorTrace_length cfg (nIterates cfg) t0) as Hlen.
  destruct (FactorTrace cfg (nIterates cfg) t0) as [| f fs].
  - cbn in Hlen. lia.
  - reflexivity.
Qed.

(** The script's own configuration, over the reals with the natural
    logarithm. *)
Lemma LCE_is_sum_over_time_witness :
  (0 < nIterates (LorenzConfig (F:=R)))%nat
  /\ exists t0 : Tangents,
       AlignLoop LorenzConfig
         (InitialState, fst (fst InitialTangents), snd (fst InitialTangents),
          snd InitialTangents) = Returns t0 /\
       let factors := FactorTrace LorenzConfig (nIterates LorenzConfig) t0 in
       let T := (dt LorenzConfig * float_of_nat (nItsPerPB LorenzConfig)
                 * float_of_nat (nIterates LorenzConfig))%py in
       length factors = nIterates LorenzConfig /\
       Estimate ln LorenzConfig InitialState InitialTangents
       = Returns (PyNum NpFloat64 (sum_log ln comp1 factors / T)%py,
                  PyNum NpFloat64 (sum_log ln comp2 factors / T)%py,
                  PyNum NpFloat64 (sum_log ln comp3 factors / T)%py).
Proof.
  split.
  - apply Nat.ltb_lt. vm_compute. reflexivity.
  - apply (LCE_is_sum_over_time ln LorenzConfig InitialState InitialTangents).
    apply Nat.ltb_lt. vm_compute. reflexivity.
Defined.


(** ** The fractal dimension *)

Lemma R_ltb_true (x y : R) : x < y -> fltb x y = true.
Proof. intros Hlt. cbn. destruct (Rlt_dec x y); [reflexivity | contradiction]. Qed.

Lemma R_ltb_false (x y : R) : ~ x < y -> fltb x y = false.
Proof. intros Hlt. cbn. destruct (Rlt_dec x y); [contradiction | reflexivity]. Qed.

Lemma R_leb_true (x y : R) : x <= y -> fleb x y = true.
Proof. intros Hle. cbn. destruct (Rle_dec x y); [reflexivity | contradiction]. Qed.

Lemma R_leb_false (x y : R) : ~ x <= y -> fleb x y = false.
Proof. intros Hle. cbn. destruct (Rle_dec x y); [contradiction | reflexivity]. Qed.

Lemma R_eqb_true (x y : R) : x = y -> feqb x y = true.
Proof. intros Heq. cbn. destruct (Req_dec_T x y); [reflexivity | contradiction]. Qed.

Lemma R_eqb_false (x y : R) : x <> y -> feqb x y = false.
Proof. intros Hne. cbn. destruct (Req_dec_T x y); [contradiction | reflexivity]. Qed.

Lemma Rabs_le_bounds (x e : R) : Rabs x <= e -> - e <= x <= e.
Proof. unfold Rabs. destruct (Rcase_abs x); lra. Qed.

(** The last branch of FractalDimension3DODE over the reals. *)
Lemma FractalDimension3DODE_chaotic (L1 L2 L3 : pynum R) :
  value L1 > 1 / 100 ->
  FractalDimension3DODE L1 L2 L3
  = q <- py_truediv (py_add L1 L2) (py_abs L3) ;;
    Returns (py_add (PyNum PyFloat (lit 2.0)) q).
Proof.
  intros Hpos. unfold FractalDimension3DODE. rewrite lit_R_Err.
  rewrite R_ltb_false by (cbn; lra).
  rewrite R_leb_false; [reflexivity |].
  cbn [fabs R_Arith]. intros Habs.
  rewrite Rabs_right in Habs by lra. lra.
Qed.

(** C7: with eps = 0.01, FractalDimension3DODE returns 0 when LCE1 < -eps,
    1 when |LCE1| <= eps and LCE2 < -eps, 2 when |LCE1| <= eps and
    LCE2 >= -eps, and 2 + (LCE1 + LCE2) / |LCE3| when LCE1 > eps (where
    that quotient is defined, LCE3 <> 0); and on the four triples
    (-1,-2,-3), (0.0,-1,-2), (0.0,0.0,-1), (1.0,0.0,-2.0) it returns
    0, 1, 2 and 2.5, over the reals and in binary64 arithmetic. *)
Theorem FractalDimension3DODE_cases :
  (forall (k1 k2 k3 : pykind) (LCE1 LCE2 LCE3 : R),
      let FD := FractalDimension3DODE
                  (PyNum k1 LCE1) (PyNum k2 LCE2) (PyNum k3 LCE3) in
      let eps := 1 / 100 in
      (LCE1 < - eps -> FD = Returns (PyNum PyFloat 0))
      /\ (Rabs LCE1 <= eps -> LCE2 < - eps -> FD = Returns (PyNum PyFloat 1))
      /\ (Rabs LCE1 <= eps -> LCE2 >= - eps -> FD = Returns (PyNum PyFloat 2))
      /\ (LCE1 > eps -> LCE3 <> 0 ->
          FD = Returns (PyNum (join (join k1 k2) k3)
                          (2 + (LCE1 + LCE2) / Rabs LCE3))))
  /\ (FractalDimension3DODE (F:=R) (py_neg_lit 1) (py_neg_lit 2) (py_neg_lit 3)
      = Returns (PyNum PyFloat 0)
      /\ FractalDimension3DODE (F:=R) (py_lit 0.0) (py_neg_lit 1) (py_neg_lit 2)
         = Returns (PyNum PyFloat 1)
      /\ FractalDimension3DODE (F:=R) (py_lit 0.0) (py_lit 0.0) (py_neg_lit 1)
         = Returns (PyNum PyFloat 2)
      /\ FractalDimension3DODE (F:=R) (py_lit 1.0) (py_lit 0.0) (py_neg_lit 2.0)
         = Returns (PyNum PyFloat (5 / 2)))
  /\ (FractalDimension3DODE (F:=PrimFloat.float)
        (py_neg_lit 1) (py_neg_lit 2) (py_neg_lit 3)
      = Returns (py_lit 0.0)
      /\ FractalDimension3DODE (F:=PrimFloat.float)
           (py_lit 0.0) (py_neg_lit 1) (py_neg_lit 2)
         = Returns (py_lit 1.0)
      /\ FractalDimension3DODE (F:=PrimFloat.float)
           (py_lit 0.0) (py_lit 0.0) (py_neg_lit 1)
         = Returns (py_lit 2.0)
      /\ FractalDimension3DODE (F:=PrimFloat.float)
           (py_lit 1.0) (py_lit 0.0) (py_neg_lit 2.0)
         = Returns (py_lit 2.5)).
Proof.
  assert (General :
    forall (k1 k2 k3 : pykind) (LCE1 LCE2 LCE3 : R),
      let FD := FractalDimension3DODE
                  (PyNum k1 LCE1) (PyNum k2 LCE2) (PyNum k3 LCE3) in
      let eps := 1 / 100 in
      (LCE1 < - eps -> FD = Returns (PyNum PyFloat 0))
      /\ (Rabs LCE1 <= eps -> LCE2 < - eps -> FD = Returns (PyNum PyFloat 1))
      /\ (Rabs LCE1 <= eps -> LCE2 >= - eps -> FD = Returns (PyNum PyFloat 2))
      /\ (LCE1 > eps -> LCE3 <> 0 ->
          FD = Returns (PyNum (join (join k1 k2) k3)
                          (2 + (LCE1 + LCE2) / Rabs LCE3)))).
  { intros k1 k2 k3 LCE1 LCE2 LCE3 FD eps. subst FD eps.
    repeat split.
    - intros Hneg. unfold FractalDimension3DODE. rewrite lit_R_Err, lit_R_0.
      cbn [value]. rewrite R_ltb_true by (cbn; lra). reflexivity.
    - intros Hzero Hneg. unfold FractalDimension3DODE.
      rewrite lit_R_Err, lit_R_1. cbn [value].
      apply Rabs_le_bounds in Hzero.
      rewrite R_ltb_false by (cbn; lra).
      rewrite R_leb_true by (cbn; apply Rabs_le; lra).
      rewrite R_ltb_true by (cbn; lra). reflexivity.
    - intros Hzero Hnn. unfold FractalDimension3DODE.
      rewrite lit_R_Err, lit_R_2. cbn [value].
      apply Rabs_le_bounds in Hzero.
      rewrite R_ltb_false by (cbn; lra).
      rewrite R_leb_true by (cbn; apply Rabs_le; lra).
      rewrite R_ltb_false by (cbn; lra). reflexivity.
    - intros Hpos Hnz.
      rewrite FractalDimension3DODE_chaotic by (cbn; lra).
      unfold py_truediv, py_add, py_abs, truediv. cbn [kind value].
      assert (Hz : feqb (fabs (F:=R) LCE3) (lit 0) = false).
      { apply R_eqb_false. cbn. unfold Q2R. cbn.
        intros Heq. apply (Rabs_no_R0 LCE3 Hnz). lra. }
      rewrite lit_R_2.
      destruct (join (join k1 k2) k3) eqn:Ek; cbn [bind].
      + rewrite Hz. cbn [bind]. reflexivity.
      + reflexivity. }
  split; [exact General |]. split.
  - unfold py_lit, py_neg_lit. repeat split.
    + apply General. cbn. unfold Q2R. cbn. lra.
    + apply General; cbn; unfold Q2R; cbn; [rewrite Rabs_right |]; lra.
    + apply General; cbn; unfold Q2R; cbn; [rewrite Rabs_right |]; lra.
    + destruct (General PyFloat PyFloat PyFloat
                  (lit 1.0) (lit 0.0) (fneg (lit 2.0))) as (_ & _ & _ & Hc).
      rewrite Hc.
      * cbn. unfold Q2R. cbn. rewrite Rabs_left by lra.
        do 2 f_equal. field.
      * cbn. unfold Q2R. cbn. lra.
      * cbn. unfold Q2R. cbn. lra.
  - repeat split; vm_compute; reflexivity.
Qed.

(** One triple in each of the four cases, as numpy.float64. *)
Lemma FractalDimension3DODE_cases_witness :
  FractalDimension3DODE
    (PyNum NpFloat64 (-1)) (PyNum NpFloat64 (-2)) (PyNum NpFloat64 (-3))
  = Returns (PyNum PyFloat 0)
  /\ FractalDimension3DODE
       (PyNum NpFloat64 (1 / 200)) (PyNum NpFloat64 (-1)) (PyNum NpFloat64 (-2))
     = Returns (PyNum PyFloat 1)
  /\ FractalDimension3DODE
       (PyNum NpFloat64 (1 / 200)) (PyNum NpFloat64 0) (PyNum NpFloat64 (-1))
     = Returns (PyNum PyFloat 2)
  /\ FractalDimension3DODE
       (PyNum NpFloat64 1) (PyNum NpFloat64 (1 / 2)) (PyNum NpFloat64 (-3))
     = Returns (PyNum NpFloat64 (2 + (1 + 1 / 2) / Rabs (-3))).
Proof.
  assert (Hsmall : Rabs (1 / 200) <= 1 / 100)
    by (rewrite Rabs_right; lra).
  repeat split.
  - apply (proj1 FractalDimension3DODE_cases
             NpFloat64 NpFloat64 NpFloat64 (-1) (-2) (-3)). lra.
  - apply (proj1 FractalDimension3DODE_cases
             NpFloat64 NpFloat64 NpFloat64 (1 / 200) (-1) (-2));
      [exact Hsmall | lra].
  - apply (proj1 FractalDimension3DODE_cases
             NpFloat64 NpFloat64 NpFloat64 (1 / 200) 0 (-1));
      [exact Hsmall | lra].
  - apply (proj1 FractalDimension3DODE_cases
             NpFloat64 NpFloat64 NpFloat64 1 (1 / 2) (-3)); lra.
Defined.


(** C8, as stated, fails: called with numpy.float64 arguments, as the
    script calls it, with LCE1 = 1.0 > eps and LCE3 = 0.0, the function
    returns the value inf; nothing is raised and nothing is clamped. *)
Lemma FractalDimension3DODE_returns_inf :
  fltb (F:=PrimFloat.float) (lit 0.01) (lit 1.0) = true
  /\ feqb (F:=PrimFloat.float) (lit 0.0) (lit 0) = true
  /\ FractalDimension3DODE (F:=PrimFloat.float)
       (PyNum NpFloat64 (lit 1.0)) (PyNum NpFloat64 (lit 0.0))
       (PyNum NpFloat64 (lit 0.0))
     = Returns (PyNum NpFloat64 PrimFloat.infinity).
Proof. repeat split; vm_compute; reflexivity. Qed.

(** C8, amended: FractalDimension3DODE does not test LCE3.  In its last
    branch (LCE1 > eps), when the three arguments are built-in Python
    numbers and abs(LCE3) == 0 the division raises ZeroDivisionError; when
    one argument is a numpy.float64 the function returns
    2.0 + (LCE1 + LCE2) / abs(LCE3) as that arithmetic computes it, whatever
    LCE3 is, which for LCE3 = 0.0 in binary64 is an infinity or nan. *)
Theorem FractalDimension3DODE_zero_LCE3 :
  (forall {F} `{Arith F} (LCE1 LCE2 LCE3 : pynum F),
      fltb (value LCE1) (fneg (lit 0.01)) = false ->
      fleb (fabs (value LCE1)) (lit 0.01) = false ->
      (join (join (kind LCE1) (kind LCE2)) (kind LCE3) = PyFloat ->
       feqb (fabs (value LCE3)) (lit 0) = true ->
       FractalDimension3DODE LCE1 LCE2 LCE3 = Raises ZeroDivisionError)
      /\ (join (join (kind LCE1) (kind LCE2)) (kind LCE3) = NpFloat64 ->
          FractalDimension3DODE LCE1 LCE2 LCE3
          = Returns (PyNum NpFloat64
                       (lit 2.0 + (value LCE1 + value LCE2)
                                  / fabs (value LCE3))%py)))
  /\ (forall LCE1 LCE2 : R,
         LCE1 > 1 / 100 ->
         FractalDimension3DODE
           (PyNum PyFloat LCE1) (PyNum PyFloat LCE2) (PyNum PyFloat 0)
         = Raises ZeroDivisionError).
Proof.
  split.
  - intros F A LCE1 LCE2 LCE3 Hlt Hle.
    unfold FractalDimension3DODE. rewrite Hlt, Hle.
    unfold py_truediv, py_add, py_abs, truediv. cbn [kind value].
    split; intros Hk; rewrite Hk.
    + intros Hz. rewrite Hz. reflexivity.
    + reflexivity.
  - intros LCE1 LCE2 Hpos.
    rewrite FractalDimension3DODE_chaotic by exact Hpos.
    unfold py_truediv, py_add, py_abs, truediv. cbn [kind value join].
    rewrite R_eqb_true; [reflexivity |].
    cbn. unfold Q2R. cbn. rewrite Rabs_R0. lra.
Qed.

(** LCE1 = 1.0, LCE2 = 0.0, LCE3 = 0.0 in binary64: as built-in floats and
    as numpy.float64. *)
Lemma FractalDimension3DODE_zero_LCE3_witness :
  FractalDimension3DODE (F:=PrimFloat.float)
    (py_lit 1.0) (py_lit 0.0) (py_lit 0.0)
  = Raises ZeroDivisionError
  /\ FractalDimension3DODE (F:=PrimFloat.float)
       (PyNum NpFloat64 (lit 1.0)) (PyNum NpFloat64 (lit 0.0))
       (PyNum NpFloat64 (lit 0.0))
     = Returns (PyNum NpFloat64
                  (lit 2.0 + (lit 1.0 + lit 0.0) / fabs (lit 0.0))%py)
  /\ FractalDimension3DODE
       (PyNum PyFloat 1) (PyNum PyFloat (1 / 2)) (PyNum PyFloat 0)
     = Raises ZeroDivisionError.
Proof.
  split; [| split].
  - apply (proj1 FractalDimension3DODE_zero_LCE3 _ _
             (py_lit 1.0) (py_lit 0.0) (py_lit 0.0));
      vm_compute; reflexivity.
  - apply (proj1 FractalDimension3DODE_zero_LCE3 _ _
             (PyNum NpFloat64 (lit 1.0)) (PyNum NpFloat64 (lit 0.0))
             (PyNum NpFloat64 (lit 0.0)));
      vm_compute; reflexivity.
  - apply (proj2 FractalDimension3DODE_zero_LCE3 1 (1 / 2)). lra.
Defined.

(** ** Step sizes that are not positive *)

(** C9, as stated, fails: with dt = 0.0 the integrator returns its input
    state, and with dt = -0.01 it returns another state; no call fails. *)
Lemma RKThreeD_accepts_nonpositive_dt :
  fleb (F:=PrimFloat.float) (lit 0.0) (lit 0.0) = true
  /\ RKThreeD (F:=PrimFloat.float) (lit 5) (lit 1) (lit 2.2) (lit 8) (lit 1)
       (lit 6.39) (lit 1.0) (lit 1.0) (lit 1.0)
       LorenzXDot LorenzYDot LorenzZDot (lit 0.0)
     = (lit 1.0, lit 1.0, lit 1.0)
  /\ fleb (F:=PrimFloat.float) (fneg (lit 0.01)) (lit 0.0) = true
  /\ feqb (comp1 (RKThreeD (F:=PrimFloat.float) (lit 5) (lit 1) (lit 2.2)
                    (lit 8) (lit 1) (lit 6.39) (lit 1.0) (lit 1.0) (lit 1.0)
                    LorenzXDot LorenzYDot LorenzZDot (fneg (lit 0.01))))
       (lit 1.0) = false.
Proof. repeat split; vm_compute; reflexivity. Qed.

(** C9, amended: RKThreeD has no check of dt and returns a state for every
    dt.  Over the reals, with dt = 0 it returns its input state, for every
    derivative triple, and with any dt it returns what the step -dt of the
    reversed field returns; so a negative dt integrates backwards. *)
Theorem RKThreeD_any_dt :
  forall (a b c d e i x y z : R) (f g h : field) (dt : R),
    RKThreeD a b c d e i x y z f g h 0 = (x, y, z)
    /\ RKThreeD a b c d e i x y z f g h dt
       = RKThreeD a b c d e i x y z
           (reversed f) (reversed g) (reversed h) (- dt).
Proof.
  intros a b c d e i x y z f g h dt. split.
  - unfold RKThreeD. rewrite lit_R_2, lit_R_6.
    cbn [fadd fmul fdiv R_Arith]. vec3_eq; field.
  - assert (E : forall u : R, - dt * - u = dt * u) by (intros; ring).
    unfold RKThreeD, reversed. cbn [fadd fmul fdiv fneg R_Arith].
    rewrite !E. reflexivity.
Qed.

(** ** Degenerate tangent vectors *)

(** C6, as stated, fails: with two identical tangent vectors the second
    post-projection norm is zero, and the pull-back returns vectors of nan;
    nothing is signalled. *)
Lemma AlignPullBack_degenerate_returns_nan :
  feqb (F:=PrimFloat.float)
    (norm (remove_projections
             [vdiv (lit 1.0, lit 0.0, lit 0.0) (norm (lit 1.0, lit 0.0, lit 0.0))]
             (lit 1.0, lit 0.0, lit 0.0)))
    (lit 0) = true
  /\ AlignPullBack (F:=PrimFloat.float)
       (lit 1.0, lit 0.0, lit 0.0) (lit 1.0, lit 0.0, lit 0.0)
       (lit 0.0, lit 0.0, lit 1.0)
     = Returns ((lit 1.0, lit 0.0, lit 0.0),
                (PrimFloat.nan, PrimFloat.nan, PrimFloat.nan),
                (PrimFloat.nan, PrimFloat.nan, PrimFloat.nan)).
Proof. split; vm_compute; reflexivity. Qed.

Section NoAbort.

Context {F : Type} `{Arith F}.
Variable log : F -> F.
Variable cfg : Config F.

(** The estimation reaches the conversion of its sums, from every state
    and every tangent vectors. *)
Lemma Estimate_reaches_Convert (s e1 e2 e3 : V3 F) :
  let t0 := for_range_pure (nTransients cfg) (fun t => fst (Interval cfg t))
              (s, e1, e2, e3) in
  let zero := PyNum PyFloat (lit 0.0) in
  let factors := FactorTrace cfg (nIterates cfg) t0 in
  Estimate log cfg s (e1, e2, e3)
  = Convert cfg (fold_left (record_log log comp1) factors zero,
                 fold_left (record_log log comp2) factors zero,
                 fold_left (record_log log comp3) factors zero).
Proof.
  cbv zeta. unfold Estimate. rewrite AlignLoop_returns. cbn [bind].
  unfold AccumulateLoop. rewrite AccumulateLoop_trace. reflexivity.
Qed.

End NoAbort.

(** C6, amended: the pull-back blocks do not test the norm and signal
    nothing.  In every arithmetic and for all tangent vectors, degenerate
    or not, each pull-back (the one of the alignment loop and the one of
    the accumulation loop) returns the Gram-Schmidt vectors obtained by
    dividing by each norm as it is, the accumulation one adding the
    logarithm of each norm to its running sum; the alignment and
    accumulation loops run all their iterations, and the exponents are
    converted from the sums that result. *)
Theorem PullBack_never_signals :
  forall {F} `{Arith F} (log : F -> F) (cfg : Config F)
    (s e1 e2 e3 : V3 F) (LCE1 LCE2 LCE3 : pynum F),
    AlignPullBack e1 e2 e3 = Returns (fst (GramSchmidt e1 e2 e3))
    /\ PullBack log e1 e2 e3 LCE1 LCE2 LCE3
       = Returns (fst (GramSchmidt e1 e2 e3),
                  (py_add LCE1
                     (PyNum NpFloat64 (log (comp1 (snd (GramSchmidt e1 e2 e3))))),
                   py_add LCE2
                     (PyNum NpFloat64 (log (comp2 (snd (GramSchmidt e1 e2 e3))))),
                   py_add LCE3
                     (PyNum NpFloat64 (log (comp3 (snd (GramSchmidt e1 e2 e3)))))))
    /\ raised (PullBack log e1 e2 e3 LCE1 LCE2 LCE3) = false
    /\ (exists t a,
           AlignLoop cfg (s, e1, e2, e3) = Returns t
           /\ AccumulateLoop log cfg
                (t, (PyNum PyFloat (lit 0.0), PyNum PyFloat (lit 0.0),
                     PyNum PyFloat (lit 0.0))) = Returns a
           /\ Estimate log cfg s (e1, e2, e3) = Convert cfg (snd a)).
Proof.
  intros F A log cfg s e1 e2 e3 LCE1 LCE2 LCE3.
  split; [apply AlignPullBack_GramSchmidt |].
  split; [| split].
  - rewrite PullBack_GramSchmidt.
    destruct (GramSchmidt e1 e2 e3) as [[[q0 q1] q2] [[f0 f1] f2]]. reflexivity.
  - rewrite PullBack_GramSchmidt.
    destruct (GramSchmidt e1 e2 e3) as [[[q0 q1] q2] [[f0 f1] f2]]. reflexivity.
  - eexists _, _. split; [apply AlignLoop_returns |].
    split; [unfold AccumulateLoop; apply AccumulateLoop_trace |].
    cbn [snd]. apply Estimate_reaches_Convert.
Qed.

(** ** The phases of the script *)

Section Orbit.

Context {F : Type} `{Arith F}.
Variable cfg : Config F.

(** The stored orbit grows by one point per iteration; x[n], y[n], z[n]
    are always in range. *)
Lemma OrbitLoop_returns count :
  forall n x y z,
    length x = S n -> length y = S n -> length z = S n ->
    exists tx ty tz,
      OrbitLoop cfg n count (x, y, z) = Returns (x ++ tx, y ++ ty, z ++ tz)
      /\ length tx = count /\ length ty = count /\ length tz = count.
Proof.
  induction count as [| count IH]; intros n x y z Hx Hy Hz.
  - exists [], [], []. cbn. rewrite !app_nil_r. auto.
  - cbn [OrbitLoop]. unfold OrbitBody.
    destruct (nth_error x n) as [xn |] eqn:Ex;
      [| apply nth_error_None in Ex; lia].
    destruct (nth_error y n) as [yn |] eqn:Ey;
      [| apply nth_error_None in Ey; lia].
    destruct (nth_error z n) as [zn |] eqn:Ez;
      [| apply nth_error_None in Ez; lia].
    destruct (advance cfg (xn, yn, zn)) as [[xt yt] zt].
    cbn [bind].
    destruct (IH (S n) (x ++ [xt]) (y ++ [yt]) (z ++ [zt]))
      as (tx & ty & tz & Hrun & Lx & Ly & Lz).
    1-3: rewrite length_app; cbn; lia.
    exists (xt :: tx), (yt :: ty), (zt :: tz).
    rewrite Hrun, <- !app_assoc. cbn. auto.
Qed.

Lemma OrbitSegment_returns :
  exists tx ty tz,
    OrbitSegment cfg
    = Returns (TransientLoop cfg InitialState,
               (comp1 (TransientLoop cfg InitialState) :: tx,
                comp2 (TransientLoop cfg InitialState) :: ty,
                comp3 (TransientLoop cfg InitialState) :: tz))
    /\ length tx = nIterates0 cfg /\ length ty = nIterates0 cfg
    /\ length tz = nIterates0 cfg.
Proof.
  unfold OrbitSegment.
  destruct (TransientLoop cfg InitialState) as [[xState yState] zState].
  destruct (@OrbitLoop_returns (nIterates0 cfg) 0%nat [xState] [yState] [zState])
    as (tx & ty & tz & Hrun & Lx & Ly & Lz); try reflexivity.
  exists tx, ty, tz. rewrite Hrun. cbn. auto.
Qed.

End Orbit.

(** C5, as stated, fails in its last clause: the alignment loop is entered
    with xState, yState, zState assigned the initial condition again
    (lines 144-146), not with the state the transient loop produced. *)
Lemma alignment_entry_is_not_burnt_in_state :
  feqb (F:=PrimFloat.float)
    (comp1 (StateOf (Reinitialize (TransientLoop LorenzConfig InitialState))))
    (comp1 (TransientLoop LorenzConfig InitialState))
  = false.
Proof. vm_compute. reflexivity. Qed.

(** C5, amended: the script runs its phases in sequence, none skipped or
    reordered.  The transient loop advances the state alone, nTransients
    steps from the initial condition, and its result starts the stored
    orbit only.  Then the state is assigned the initial condition again
    and the three tangent vectors are created as the standard basis; the
    alignment loop starts from these, the accumulation loop from the
    result of the alignment loop with sums at 0.0, and the conversion and
    the report come last. *)
Theorem script_phases :
  forall {F} `{Arith F} (log : F -> F) (cfg : Config F),
    (forall st : V3 F,
        Reinitialize st
        = (InitialState, (lit 1.0, lit 0.0, lit 0.0),
           (lit 0.0, lit 1.0, lit 0.0), (lit 0.0, lit 0.0, lit 1.0))
        /\ StateOf (Reinitialize st) = InitialState)
    /\ TransientLoop cfg InitialState
       = for_range_pure (nTransients0 cfg) (advance cfg)
           (lit 1.0, lit 1.0, lit 1.0)
    /\ exists o : list F * list F * list F,
         OrbitSegment cfg = Returns (TransientLoop cfg InitialState, o)
         /\ (let '(x, y, z) := o in
             (hd_error x, hd_error y, hd_error z)
             = (Some (comp1 (TransientLoop cfg InitialState)),
                Some (comp2 (TransientLoop cfg InitialState)),
                Some (comp3 (TransientLoop cfg InitialState))))
         /\ script log cfg
            = (t <- AlignLoop cfg
                      (Reinitialize (TransientLoop cfg InitialState)) ;;
               a <- AccumulateLoop log cfg
                      (t, (PyNum PyFloat (lit 0.0), PyNum PyFloat (lit 0.0),
                           PyNum PyFloat (lit 0.0))) ;;
               lces <- Convert cfg (snd a) ;;
               Report cfg o lces).
Proof.
  intros F A log cfg. split; [| split].
  - intros st. split; reflexivity.
  - reflexivity.
  - destruct (OrbitSegment_returns cfg) as (tx & ty & tz & Hrun & _).
    eexists. split; [exact Hrun |]. split; [reflexivity |].
    unfold script. rewrite Hrun. cbn [bind].
    unfold Reinitialize, InitialTangents, Estimate.
    destruct (AlignLoop cfg _) as [t | ex]; cbn [bind]; [| reflexivity].
    destruct (AccumulateLoop log cfg _) as [[t' sums] | ex]; reflexivity.
Qed.

(** ** Further properties of the vector field and the integrator *)

Ltac real_ops := cbn [fadd fsub fmul fdiv fneg R_Arith].

(** X1: LorenzDXDot, LorenzDYDot, LorenzDZDot are the linearization of
    LorenzXDot, LorenzYDot, LorenzZDot: the field at a displaced point is
    the field at the point plus the linearized derivative of the
    displacement plus a remainder of second order in the displacement,
    alpha dy dz for x, - beta dx dz for y and none for z. *)
Theorem LorenzDDot_linearizes :
  forall alpha gamma mu beta delta lambd x y z dx dy dz : R,
    LorenzXDot alpha gamma mu beta delta lambd (x + dx) (y + dy) (z + dz)
    = LorenzXDot alpha gamma mu beta delta lambd x y z
      + LorenzDXDot alpha gamma mu beta delta lambd x y z dx dy dz
      + alpha * dy * dz
    /\ LorenzYDot alpha gamma mu beta delta lambd (x + dx) (y + dy) (z + dz)
       = LorenzYDot alpha gamma mu beta delta lambd x y z
         + LorenzDYDot alpha gamma mu beta delta lambd x y z dx dy dz
         - beta * dx * dz
    /\ LorenzZDot alpha gamma mu beta delta lambd (x + dx) (y + dy) (z + dz)
       = LorenzZDot alpha gamma mu beta delta lambd x y z
         + LorenzDZDot alpha gamma mu beta delta lambd x y z dx dy dz.
Proof.
  intros. unfold LorenzXDot, LorenzYDot, LorenzZDot,
    LorenzDXDot, LorenzDYDot, LorenzDZDot. real_ops.
  repeat split; ring.
Qed.

(** X2: LorenzODETrJac is the trace of the linearization, the sum of the
    x component of LorenzDXDot along (1,0,0), of LorenzDYDot along (0,1,0)
    and of LorenzDZDot along (0,0,1), at every state; it does not depend on
    the state it is given. *)
Theorem LorenzODETrJac_is_trace :
  forall alpha gamma mu beta delta lambd x y z x' y' z' : R,
    LorenzDXDot alpha gamma mu beta delta lambd x y z 1 0 0
    + LorenzDYDot alpha gamma mu beta delta lambd x y z 0 1 0
    + LorenzDZDot alpha gamma mu beta delta lambd x y z 0 0 1
    = LorenzODETrJac alpha gamma mu beta delta lambd x' y' z'.
Proof.
  intros. unfold LorenzDXDot, LorenzDYDot, LorenzDZDot, LorenzODETrJac.
  real_ops. ring.
Qed.

(** X3: RKThreeD leaves every equilibrium fixed: where the three
    derivatives vanish, the step returns the state it was given, for
    every step size. *)
Theorem RKThreeD_fixes_equilibria :
  forall (a b c d e i x y z : R) (f g h : field) (dt : R),
    f a b c d e i x y z = 0 ->
    g a b c d e i x y z = 0 ->
    h a b c d e i x y z = 0 ->
    RKThreeD a b c d e i x y z f g h dt = (x, y, z).
Proof.
  intros a b c d e i x y z f g h dt Hf Hg Hh.
  assert (Ex : x + dt * 0 / 2 = x) by field.
  assert (Ey : y + dt * 0 / 2 = y) by field.
  assert (Ez : z + dt * 0 / 2 = z) by field.
  assert (Fx : x + dt * 0 = x) by ring.
  assert (Fy : y + dt * 0 = y) by ring.
  assert (Fz : z + dt * 0 = z) by ring.
  unfold RKThreeD. rewrite lit_R_2, lit_R_6. real_ops.
  rewrite Hf, Hg, Hh, Ex, Ey, Ez.
  rewrite Hf, Hg, Hh, Ex, Ey, Ez.
  rewrite Hf, Hg, Hh, Fx, Fy, Fz.
  rewrite Hf, Hg, Hh.
  vec3_eq; field.
Qed.

(** The origin is an equilibrium of the Lorenz field, whatever the
    parameters. *)
Lemma RKThreeD_fixes_equilibria_witness :
  LorenzStep 5 1 (22 / 10) 8 1 (639 / 100) (1 / 100) (0, 0, 0) = (0, 0, 0).
Proof.
  unfold LorenzStep.
  apply (RKThreeD_fixes_equilibria 5 1 (22 / 10) 8 1 (639 / 100) 0 0 0
           LorenzXDot LorenzYDot LorenzZDot (1 / 100));
    unfold LorenzXDot, LorenzYDot, LorenzZDot; real_ops; ring.
Defined.

(** X4: on the uncoupled linear field x' = a x, y' = b y, z' = c z, one
    step of RKThreeD multiplies each coordinate by the Taylor polynomial
    of degree four of the exponential, at dt times the rate. *)
Theorem RKThreeD_linear_field :
  forall (a b c d e i x y z dt : R),
    RKThreeD a b c d e i x y z DecayX DecayY DecayZ dt
    = (x * taylor4 (dt * a), y * taylor4 (dt * b), z * taylor4 (dt * c)).
Proof.
  intros. unfold RKThreeD, DecayX, DecayY, DecayZ, taylor4.
  rewrite lit_R_2, lit_R_6. real_ops.
  vec3_eq; field.
Qed.

(** X5: the tangent step of the Lorenz flow is the Taylor polynomial of
    degree four of the exponential of dt J applied to the tangent vector,
    where J is the linearized derivative at the base state:
    w + dt J w + dt^2/2 J^2 w + dt^3/6 J^3 w + dt^4/24 J^4 w. *)
Theorem TangentFlowRKThreeD_taylor :
  forall (a b c d e i x y z dt : R) (w : V3 R),
    let J := LorenzTangentDerivative a b c d e i x y z in
    LorenzTangentStep a b c d e i x y z dt w
    = vadd (vadd (vadd (vadd w (vscale dt (J w)))
                    (vscale (dt * dt / 2) (J (J w))))
              (vscale (dt * dt * dt / 6) (J (J (J w)))))
        (vscale (dt * dt * dt * dt / 24) (J (J (J (J w))))).
Proof.
  intros a b c d e i x y z dt [[wx wy] wz]. cbv zeta.
  unfold LorenzTangentStep, LorenzTangentDerivative, TangentFlowRKThreeD,
    LorenzDXDot, LorenzDYDot, LorenzDZDot.
  cbn [vadd vscale].
  rewrite lit_R_2, lit_R_6. real_ops.
  vec3_eq; field.
Qed.

(** X6: the Lorenz field is symmetric under the reflection
    (x, y, z) |-> (x, -y, -z), and so is the integrator step: the step of
    the reflected state is the reflection of the step. *)
Theorem Lorenz_mirror_symmetry :
  forall (a b c d e i dt : R) (s : V3 R),
    LorenzField a b c d e i (mirror s) = mirror (LorenzField a b c d e i s)
    /\ LorenzStep a b c d e i dt (mirror s)
       = mirror (LorenzStep a b c d e i dt s).
Proof.
  intros a b c d e i dt [[x y] z].
  unfold LorenzField, LorenzStep, as_field, mirror, RKThreeD,
    LorenzXDot, LorenzYDot, LorenzZDot.
  rewrite lit_R_2, lit_R_6. real_ops.
  split; vec3_eq; field.
Qed.

(** ** Further properties of the pull-back *)

Section PullBackFacts.

Implicit Types u v w q : V3 R.

Lemma vdiv_one v : vdiv v 1 = v.
Proof. destruct v as [[x y] z]. cbn. vec3_eq; field. Qed.

Lemma vscale_vdiv v c : c <> 0 -> vscale c (vdiv v c) = v.
Proof. intros Hc. destruct v as [[x y] z]. cbn. vec3_eq; field; exact Hc. Qed.

Lemma norm_nonneg v : 0 <= norm v.
Proof. unfold norm. cbn [fsqrt R_Arith]. apply sqrt_pos. Qed.

Lemma norm_one_dot q : norm q = 1 -> dot q q = 1.
Proof. intros Hn. rewrite <- norm_sqr, Hn. ring. Qed.

Lemma remove_one_orthogonal_id q v :
  dot q v = 0 -> remove_projections [q] v = v.
Proof.
  intros Hd. cbn [remove_projections fold_left]. unfold projection.
  rewrite Hd. destruct q as [[qx qy] qz], v as [[x y] z]. cbn. vec3_eq; ring.
Qed.

Lemma remove_two_orthogonal_id q0 q1 v :
  dot q0 v = 0 -> dot q1 v = 0 -> remove_projections [q0; q1] v = v.
Proof.
  intros H0 H1. cbn [remove_projections fold_left]. unfold projection.
  rewrite H0, H1.
  destruct q0 as [[ax ay] az], q1 as [[bx by'] bz], v as [[x y] z]. cbn.
  vec3_eq; ring.
Qed.

(** The determinant is linear in each vector and vanishes on repeats. *)
Lemma det3_triangular q0 q1 q2 (f0 f1 f2 a b c : R) :
  det3 (vscale f0 q0)
       (vadd (vscale a q0) (vscale f1 q1))
       (vadd (vadd (vscale b q0) (vscale c q1)) (vscale f2 q2))
  = f0 * f1 * f2 * det3 q0 q1 q2.
Proof.
  destruct q0 as [[ax ay] az], q1 as [[bx by'] bz], q2 as [[cx cy] cz].
  cbn. ring.
Qed.

(** The square of the determinant is the determinant of the matrix of
    dot products. *)
Lemma det3_gram u v w :
  det3 u v w * det3 u v w
  = dot u u * (dot v v * dot w w - dot v w * dot v w)
    - dot u v * (dot u v * dot w w - dot v w * dot u w)
    + dot u w * (dot u v * dot v w - dot v v * dot u w).
Proof.
  destruct u as [[ax ay] az], v as [[bx by'] bz], w as [[cx cy] cz].
  cbn. ring.
Qed.

Lemma det3_orthonormal q0 q1 q2 :
  orthonormal q0 q1 q2 -> Rabs (det3 q0 q1 q2) = 1.
Proof.
  intros (N0 & N1 & N2 & H01 & H02 & H12).
  pose proof (det3_gram q0 q1 q2) as G.
  rewrite (norm_one_dot q0 N0), (norm_one_dot q1 N1), (norm_one_dot q2 N2),
    H01, H02, H12 in G.
  assert (Hsq : det3 q0 q1 q2 * det3 q0 q1 q2 = 1) by (rewrite G; ring).
  unfold Rabs. destruct (Rcase_abs (det3 q0 q1 q2)); nra.
Qed.

End PullBackFacts.

(** X7: the pull-back of a triple that is already orthonormal returns
    the triple unchanged with all three factors equal to 1, so with the
    natural logarithm it leaves the value of each running sum as it is. *)
Theorem PullBack_orthonormal_fixed :
  forall (q0 q1 q2 : V3 R) (LCE1 LCE2 LCE3 : pynum R),
    orthonormal q0 q1 q2 ->
    GramSchmidt q0 q1 q2 = ((q0, q1, q2), (1, 1, 1))
    /\ AlignPullBack q0 q1 q2 = Returns (q0, q1, q2)
    /\ PullBack ln q0 q1 q2 LCE1 LCE2 LCE3
       = Returns (q0, q1, q2,
                  (PyNum NpFloat64 (value LCE1), PyNum NpFloat64 (value LCE2),
                   PyNum NpFloat64 (value LCE3))).
Proof.
  intros q0 q1 q2 LCE1 LCE2 LCE3 (N0 & N1 & N2 & H01 & H02 & H12).
  assert (G : GramSchmidt q0 q1 q2 = ((q0, q1, q2), (1, 1, 1))).
  { unfold GramSchmidt. rewrite N0, vdiv_one.
    rewrite (remove_one_orthogonal_id q0 q1 H01), N1, vdiv_one.
    rewrite (remove_two_orthogonal_id q0 q1 q2 H02 H12), N2, vdiv_one.
    reflexivity. }
  split; [exact G |]. split.
  - rewrite AlignPullBack_GramSchmidt, G. reflexivity.
  - rewrite PullBack_GramSchmidt, G. unfold py_add. cbn [kind value].
    rewrite ln_1. real_ops. rewrite !Rplus_0_r.
    destruct (kind LCE1), (kind LCE2), (kind LCE3); reflexivity.
Qed.

Lemma standard_basis_orthonormal :
  orthonormal (1, 0, 0) (0, 1, 0) (0, 0, 1).
Proof.
  unfold orthonormal. repeat split;
    try (apply unit_norm; cbn; ring); cbn; ring.
Qed.

(** The standard basis, with which the script starts. *)
Lemma PullBack_orthonormal_fixed_witness :
  GramSchmidt (F:=R) (1, 0, 0) (0, 1, 0) (0, 0, 1)
  = (((1, 0, 0), (0, 1, 0), (0, 0, 1)), (1, 1, 1))
  /\ AlignPullBack (F:=R) (1, 0, 0) (0, 1, 0) (0, 0, 1)
     = Returns ((1, 0, 0), (0, 1, 0), (0, 0, 1))
  /\ PullBack ln (1, 0, 0) (0, 1, 0) (0, 0, 1)
       (PyNum PyFloat 0) (PyNum PyFloat 0) (PyNum PyFloat 0)
     = Returns ((1, 0, 0), (0, 1, 0), (0, 0, 1),
                (PyNum NpFloat64 0, PyNum NpFloat64 0, PyNum NpFloat64 0)).
Proof.
  apply (@PullBack_orthonormal_fixed (1, 0, 0) (0, 1, 0) (0, 0, 1)
           (PyNum PyFloat 0) (PyNum PyFloat 0) (PyNum PyFloat 0)
           standard_basis_orthonormal).
Defined.

(** The pull-back as a triangular factorization. *)
Lemma GramSchmidt_triangular :
  forall v0 v1 v2 : V3 R,
    linearly_independent v0 v1 v2 ->
    let '((q0, q1, q2), (f0, f1, f2)) := GramSchmidt v0 v1 v2 in
    v0 = vscale f0 q0
    /\ v1 = vadd (vscale (dot q0 v1) q0) (vscale f1 q1)
    /\ v2 = vadd (vadd (vscale (dot q0 v2) q0) (vscale (dot q1 v2) q1))
              (vscale f2 q2)
    /\ 0 < f0 /\ 0 < f1 /\ 0 < f2
    /\ f0 * f1 * f2 = Rabs (det3 v0 v1 v2).
Proof.
  intros v0 v1 v2 Hli.
  pose proof (GramSchmidt_orthonormal Hli) as Ho.
  pose proof (norm_nonzero (independent_first Hli)) as N0.
  pose proof (norm_nonzero (independent_second Hli)) as N1.
  pose proof (norm_nonzero (independent_third Hli)) as N2.
  cbv zeta in N2.
  unfold GramSchmidt in *. cbn [fst] in Ho.
  set (f0 := norm v0) in *. set (q0 := vdiv v0 f0) in *.
  set (w1 := remove_projections [q0] v1) in *.
  set (f1 := norm w1) in *. set (q1 := vdiv w1 f1) in *.
  set (w2 := remove_projections [q0; q1] v2) in *.
  set (f2 := norm w2) in *. set (q2 := vdiv w2 f2) in *.
  assert (P0 : 0 < f0) by (pose proof (norm_nonneg v0); fold f0 in H; lra).
  assert (P1 : 0 < f1) by (pose proof (norm_nonneg w1); fold f1 in H; lra).
  assert (P2 : 0 < f2) by (pose proof (norm_nonneg w2); fold f2 in H; lra).
  assert (E0 : v0 = vscale f0 q0)
    by (unfold q0; rewrite vscale_vdiv by exact N0; reflexivity).
  assert (E1 : v1 = vadd (vscale (dot q0 v1) q0) (vscale f1 q1)).
  { unfold q1. rewrite vscale_vdiv by exact N1. unfold w1.
    cbn [remove_projections fold_left]. unfold projection.
    generalize (dot q0 v1). intros k.
    destruct q0 as [[ax ay] az], v1 as [[x y] z]. cbn. vec3_eq; ring. }
  assert (E2 : v2 = vadd (vadd (vscale (dot q0 v2) q0) (vscale (dot q1 v2) q1))
                      (vscale f2 q2)).
  { unfold q2. rewrite vscale_vdiv by exact N2. unfold w2.
    cbn [remove_projections fold_left]. unfold projection.
    generalize (dot q0 v2) (dot q1 v2). intros k0 k1.
    destruct q0 as [[ax ay] az], q1 as [[bx by'] bz], v2 as [[x y] z]. cbn.
    vec3_eq; ring. }
  assert (D : f0 * f1 * f2 = Rabs (det3 v0 v1 v2)).
  { rewrite E0 at 1. rewrite E1 at 1. rewrite E2 at 1.
    rewrite det3_triangular, Rabs_mult, (@det3_orthonormal q0 q1 q2 Ho).
    rewrite Rabs_right; [ring |].
    apply Rle_ge. apply Rmult_le_pos; [apply Rmult_le_pos |]; lra. }
  repeat split; assumption.
Qed.

(** The logarithms of the three factors add up to that of the volume. *)
Lemma GramSchmidt_log_volume :
  forall v0 v1 v2 : V3 R,
    linearly_independent v0 v1 v2 ->
    let '(_, (f0, f1, f2)) := GramSchmidt v0 v1 v2 in
    ln f0 + ln f1 + ln f2 = ln (Rabs (det3 v0 v1 v2)).
Proof.
  intros v0 v1 v2 Hli.
  pose proof (GramSchmidt_triangular Hli) as Ht.
  destruct (GramSchmidt v0 v1 v2) as [[[q0 q1] q2] [[f0 f1] f2]].
  destruct Ht as (_ & _ & _ & P0 & P1 & P2 & D).
  rewrite <- D. rewrite !ln_mult; try lra.
  apply Rmult_lt_0_compat; assumption.
Qed.

(** X8: for a linearly independent triple the pull-back blocks compute
    a triangular factorization: the vectors they return and the factors
    whose logarithms the accumulation block adds to LCE1, LCE2, LCE3 are
    such that vector k is factor k times output k plus its projections
    onto the outputs before it; the three factors are positive, their
    product is the volume |det| of the triple, and one pull-back raises
    the sum of the three running sums by the logarithm of that volume. *)
Theorem PullBack_triangular_factorization :
  forall (v0 v1 v2 : V3 R) (LCE1 LCE2 LCE3 : pynum R),
    linearly_independent v0 v1 v2 ->
    exists (q0 q1 q2 : V3 R) (f0 f1 f2 : R) (LCE1' LCE2' LCE3' : pynum R),
      PullBack ln v0 v1 v2 LCE1 LCE2 LCE3
      = Returns (q0, q1, q2, (LCE1', LCE2', LCE3'))
      /\ AlignPullBack v0 v1 v2 = Returns (q0, q1, q2)
      /\ LCE1' = py_add LCE1 (PyNum NpFloat64 (ln f0))
      /\ LCE2' = py_add LCE2 (PyNum NpFloat64 (ln f1))
      /\ LCE3' = py_add LCE3 (PyNum NpFloat64 (ln f2))
      /\ v0 = vscale f0 q0
      /\ v1 = vadd (vscale (dot q0 v1) q0) (vscale f1 q1)
      /\ v2 = vadd (vadd (vscale (dot q0 v2) q0) (vscale (dot q1 v2) q1))
                (vscale f2 q2)
      /\ 0 < f0 /\ 0 < f1 /\ 0 < f2
      /\ f0 * f1 * f2 = Rabs (det3 v0 v1 v2)
      /\ value LCE1' + value LCE2' + value LCE3'
         = value LCE1 + value LCE2 + value LCE3 + ln (Rabs (det3 v0 v1 v2)).
Proof.
  intros v0 v1 v2 LCE1 LCE2 LCE3 Hli.
  pose proof (GramSchmidt_triangular Hli) as Ht.
  pose proof (GramSchmidt_log_volume Hli) as Hl.
  pose proof (PullBack_GramSchmidt ln v0 v1 v2 LCE1 LCE2 LCE3) as Hp.
  pose proof (AlignPullBack_GramSchmidt v0 v1 v2) as Ha.
  destruct (GramSchmidt v0 v1 v2) as [[[q0 q1] q2] [[f0 f1] f2]].
  destruct Ht as (E0 & E1 & E2 & P0 & P1 & P2 & D).
  exists q0, q1, q2, f0, f1, f2.
  eexists _, _, _. split; [exact Hp |]. split; [exact Ha |].
  repeat (split; [first [reflexivity | assumption] |]).
  unfold py_add. cbn [value]. real_ops. rewrite <- Hl. ring.
Qed.

(** ** Further properties of the loops *)

Section LoopFacts.

Context {S : Type}.

Lemma for_range_pure_succ_r (f : S -> S) n :
  forall s, for_range_pure (Datatypes.S n) f s = f (for_range_pure n f s).
Proof.
  induction n as [| n IH]; intros s.
  - reflexivity.
  - cbn [for_range_pure] in *. rewrite <- IH. reflexivity.
Qed.

Lemma for_range_pure_add (f : S -> S) m n :
  forall s,
    for_range_pure (m + n) f s = for_range_pure n f (for_range_pure m f s).
Proof.
  induction m as [| m IH]; intros s.
  - reflexivity.
  - cbn [Nat.add for_range_pure]. apply IH.
Qed.

End LoopFacts.

Section OrbitFacts.

Context {F : Type} `{Arith F}.
Variable cfg : Config F.

Lemma trajectory_succ n s :
  trajectory cfg (S n) s
  = trajectory cfg n s ++ [for_range_pure n (advance cfg) s].
Proof. unfold trajectory. rewrite seq_S, map_app. reflexivity. Qed.

Lemma trajectory_length n s : length (trajectory cfg n s) = n.
Proof. unfold trajectory. rewrite length_map, length_seq. reflexivity. Qed.

Lemma trajectory_last n s (k : V3 F -> F) :
  nth_error (map k (trajectory cfg (S n) s)) n
  = Some (k (for_range_pure n (advance cfg) s)).
Proof.
  rewrite trajectory_succ, map_app.
  rewrite nth_error_app2 by (rewrite length_map, trajectory_length; lia).
  rewrite length_map, trajectory_length, Nat.sub_diag. reflexivity.
Qed.

(** The three lists always hold the points computed so far, so the
    reads x[n], y[n], z[n] are in range. *)
Lemma OrbitLoop_trajectory count :
  forall n s,
    OrbitLoop cfg n count
      (map comp1 (trajectory cfg (S n) s), map comp2 (trajectory cfg (S n) s),
       map comp3 (trajectory cfg (S n) s))
    = Returns (map comp1 (trajectory cfg (S n + count) s),
               map comp2 (trajectory cfg (S n + count) s),
               map comp3 (trajectory cfg (S n + count) s)).
Proof.
  induction count as [| count IH]; intros n s.
  - rewrite Nat.add_0_r. reflexivity.
  - cbn [OrbitLoop]. unfold OrbitBody. rewrite !trajectory_last.
    pose proof (for_range_pure_succ_r (advance cfg) n s) as Hnext.
    destruct (for_range_pure n (advance cfg) s) as [[xn yn] zn] eqn:En.
    cbn [comp1 comp2 comp3].
    destruct (advance cfg (xn, yn, zn)) as [[xt yt] zt] eqn:Et.
    cbn [bind].
    replace (S n + S count)%nat with (S (S n) + count)%nat by lia.
    rewrite <- IH. f_equal.
    rewrite (trajectory_succ (S n)), !map_app, Hnext. reflexivity.
Qed.

End OrbitFacts.

(** X9: the stored orbit holds nIterates + 1 points, the states after
    nTransients, nTransients + 1, ... integrator steps from the initial
    condition, in order; no read of x[n], y[n], z[n] is out of range. *)
Theorem orbit_is_trajectory :
  forall {F} `{Arith F} (cfg : Config F),
    let points :=
      map (fun n => for_range_pure (nTransients0 cfg + n) (advance cfg)
                      InitialState)
        (seq 0 (S (nIterates0 cfg))) in
    OrbitSegment cfg
    = Returns (for_range_pure (nTransients0 cfg) (advance cfg) InitialState,
               (map comp1 points, map comp2 points, map comp3 points))
    /\ length points = S (nIterates0 cfg).
Proof.
  intros F A cfg points. split.
  - unfold OrbitSegment, TransientLoop.
    set (s0 := for_range_pure (nTransients0 cfg) (advance cfg) InitialState).
    assert (Hp : points = trajectory cfg (S (nIterates0 cfg)) s0).
    { unfold points, trajectory. apply map_ext. intros n.
      apply for_range_pure_add. }
    destruct s0 as [[xState yState] zState] eqn:Es.
    pose proof (OrbitLoop_trajectory cfg (nIterates0 cfg) 0 (xState, yState, zState))
      as Hrun.
    cbn [trajectory seq map for_range_pure comp1 comp2 comp3 Nat.add] in Hrun.
    unfold trajectory in Hp. cbn [Nat.add] in Hrun.
    change (map comp1 [(xState, yState, zState)]) with [xState] in Hrun.
    rewrite Hrun. cbn [bind]. rewrite Hp. reflexivity.
  - unfold points. rewrite length_map, length_seq. reflexivity.
Qed.

(** ** Further properties of the estimation *)

Lemma OrbitSegment_succeeds {F} `{Arith F} (cfg : Config F) :
  exists o, OrbitSegment cfg = Returns (TransientLoop cfg InitialState, o).
Proof.
  destruct (OrbitSegment_returns cfg) as (tx & ty & tz & Hrun & _).
  eexists. exact Hrun.
Qed.

Section EstimationFacts.

Context {F : Type} `{Arith F}.
Variable log : F -> F.
Variable cfg : Config F.

Lemma for_range_add {S} (body : S -> outcome S) m n :
  forall s,
    for_range (m + n) body s = (s' <- for_range m body s ;; for_range n body s').
Proof.
  induction m as [| m IH]; intros s.
  - reflexivity.
  - cbn [Nat.add for_range]. destruct (body s) as [s1 | ex]; cbn [bind].
    + apply IH.
    + reflexivity.
Qed.

(** With a numpy.float64 among the arguments, FractalDimension3DODE
    returns. *)
Lemma FractalDimension3DODE_numpy (LCE1 LCE2 LCE3 : pynum F) :
  join (join (kind LCE1) (kind LCE2)) (kind LCE3) = NpFloat64 ->
  raised (FractalDimension3DODE LCE1 LCE2 LCE3) = false.
Proof.
  intros Hk. unfold FractalDimension3DODE.
  destruct (fltb _ _); [reflexivity |].
  destruct (fleb _ _); [destruct (fltb _ _); reflexivity |].
  unfold py_truediv, py_add, py_abs, truediv. cbn [kind value].
  rewrite Hk. reflexivity.
Qed.

(** The printed values come from the estimation alone. *)
Lemma printed_script :
  printed (script log cfg)
  = (lces <- Estimate log cfg InitialState InitialTangents ;;
     printed (Report cfg ([], [], []) lces)).
Proof.
  unfold script.
  destruct (OrbitSegment_succeeds cfg) as (o & Ho). rewrite Ho. cbn [bind].
  unfold Reinitialize, InitialTangents.
  destruct (Estimate log cfg _ _) as [[[L1 L2] L3] | ex]; cbn [bind printed];
    [| reflexivity].
  unfold Report.
  destruct (FractalDimension3DODE L1 L2 L3); reflexivity.
Qed.

End EstimationFacts.

(** X10: what the script prints (the exponents, the contraction and the
    fractal dimension) does not depend on the transient and iterate
    counts of the plotted orbit. *)
Theorem printed_independent_of_orbit :
  forall {F} `{Arith F} (log : F -> F) (cfg : Config F)
    (transients iterates : nat),
    printed (script log (with_orbit_counts cfg transients iterates))
    = printed (script log cfg).
Proof.
  intros F A log cfg transients iterates.
  rewrite !printed_script. reflexivity.
Qed.

(** X11: with at least one accumulation interval the script runs to its
    end whatever the other constants are (also dt = 0 or nItsPerPB = 0):
    the exponents it prints are numpy.float64 values, so neither their
    conversion nor the fractal dimension raises, and the contraction it
    prints is mu - gamma - lambd. *)
Theorem script_returns :
  forall {F} `{Arith F} (log : F -> F) (cfg : Config F),
    (0 < nIterates cfg)%nat ->
    exists out : Output F,
      script log cfg = Returns out
      /\ (let '(LCE1, LCE2, LCE3) := LCEs out in
          kind LCE1 = NpFloat64 /\ kind LCE2 = NpFloat64
          /\ kind LCE3 = NpFloat64)
      /\ Contraction out = (mu cfg - gamma cfg - lambd cfg)%py.
Proof.
  intros F A log cfg Hn. unfold script.
  destruct (OrbitSegment_succeeds cfg) as (o & Ho). rewrite Ho. cbn [bind].
  unfold Reinitialize, InitialTangents.
  rewrite Estimate_reaches_Convert. rewrite !record_log_fold.
  set (t0 := for_range_pure _ _ _).
  pose proof (FactorTrace_length cfg (nIterates cfg) t0) as Hlen.
  destruct (FactorTrace cfg (nIterates cfg) t0) as [| f fs];
    [cbn in Hlen; lia |].
  unfold Convert, py_truediv, truediv. cbn [kind value join bind].
  unfold Report.
  match goal with
  | |- context [FractalDimension3DODE ?a ?b ?c] =>
      pose proof (FractalDimension3DODE_numpy a b c eq_refl) as Hfd;
      destruct (FractalDimension3DODE a b c) as [fd | ex];
      [| discriminate Hfd]
  end.
  cbn [bind]. eexists. split; [reflexivity |].
  cbn [LCEs Contraction]. repeat split.
Qed.

(** The script's own configuration, over the reals. *)
Lemma script_returns_witness :
  exists out : Output R,
    script ln LorenzConfig = Returns out
    /\ (let '(LCE1, LCE2, LCE3) := LCEs out in
        kind LCE1 = NpFloat64 /\ kind LCE2 = NpFloat64
        /\ kind LCE3 = NpFloat64)
    /\ Contraction out
       = (mu LorenzConfig - gamma LorenzConfig - lambd LorenzConfig)%py.
Proof.
  apply (script_returns ln LorenzConfig).
  apply Nat.ltb_lt. vm_compute. reflexivity.
Defined.

(** X12: with no accumulation interval (nIterates = 0) the running sums
    are still the built-in floats 0.0 and the time is 0.0, so over the
    reals the conversion of line 251 raises ZeroDivisionError and the
    script prints nothing. *)
Theorem script_raises_without_intervals :
  forall (log : R -> R) (cfg : Config R),
    nIterates cfg = 0%nat ->
    script log cfg = Raises ZeroDivisionError.
Proof.
  intros log cfg Hn. unfold script.
  destruct (OrbitSegment_succeeds cfg) as (o & Ho). rewrite Ho. cbn [bind].
  unfold Reinitialize, InitialTangents.
  rewrite Estimate_reaches_Convert. rewrite Hn.
  cbn [FactorTrace fold_left].
  unfold Convert, py_truediv, truediv, IntegrationTime. rewrite Hn.
  cbn [kind value join].
  rewrite R_eqb_true; [reflexivity |].
  cbn. unfold Q2R. cbn. lra.
Qed.

Lemma script_raises_without_intervals_witness :
  script ln
    {| dt := 1 / 100; alpha := 5; gamma := 1; mu := 22 / 10; beta := 8;
       delta := 1; lambd := 639 / 100; nTransients0 := 2; nIterates0 := 3;
       nTransients := 2; nIterates := 0; nItsPerPB := 10 |}
  = Raises ZeroDivisionError.
Proof.
  apply script_raises_without_intervals. reflexivity.
Defined.

(** X13: the accumulation loop evolves the state and the tangent vectors
    exactly as the alignment loop does and only adds the logarithms: the
    state and tangent vectors at the end of the estimation are those of
    nTransients + nIterates iterations of the alignment loop. *)
Theorem accumulation_evolves_as_alignment :
  forall {F} `{Arith F} (log : F -> F) (cfg : Config F) (t : Tangents)
    (LCE1 LCE2 LCE3 : pynum F),
    exists t2 sums,
      (t1 <- AlignLoop cfg t ;; AccumulateLoop log cfg (t1, (LCE1, LCE2, LCE3)))
      = Returns (t2, sums)
      /\ for_range (nTransients cfg + nIterates cfg) (AlignBody cfg) t
         = Returns t2.
Proof.
  intros F A log cfg t LCE1 LCE2 LCE3.
  rewrite AlignLoop_returns. cbn [bind].
  unfold AccumulateLoop. rewrite AccumulateLoop_trace.
  eexists _, _. split; [reflexivity |].
  rewrite (for_range_returns (AlignBody cfg) (fun t => fst (Interval cfg t))
             (AlignBody_Interval cfg)).
  rewrite for_range_pure_add. reflexivity.
Qed.

(** ** Further properties of the fractal dimension *)

(** Over the reals: the raising calls of FractalDimension3DODE. *)
Lemma FractalDimension3DODE_raises_iff_R :
  forall LCE1 LCE2 LCE3 : pynum R,
    (FractalDimension3DODE LCE1 LCE2 LCE3 = Raises ZeroDivisionError
     <-> (value LCE1 > 1 / 100 /\ value LCE3 = 0
          /\ kind LCE1 = PyFloat /\ kind LCE2 = PyFloat
          /\ kind LCE3 = PyFloat))
    /\ (raised (FractalDimension3DODE LCE1 LCE2 LCE3) = true
        <-> FractalDimension3DODE LCE1 LCE2 LCE3 = Raises ZeroDivisionError).
Proof.
  intros [k1 L1] [k2 L2] [k3 L3]. cbn [kind value].
  destruct (Rlt_dec L1 (- (1 / 100))) as [Hneg | Hnneg].
  { assert (E : FractalDimension3DODE (PyNum k1 L1) (PyNum k2 L2) (PyNum k3 L3)
                = Returns (PyNum PyFloat (lit 0.0))).
    { unfold FractalDimension3DODE. rewrite lit_R_Err. cbn [value].
      rewrite R_ltb_true by (cbn; lra). reflexivity. }
    rewrite E. cbn [raised]. repeat split; try discriminate; intros; lra. }
  destruct (Rle_dec (Rabs L1) (1 / 100)) as [Hzero | Hpos].
  { assert (E : exists r, FractalDimension3DODE
                            (PyNum k1 L1) (PyNum k2 L2) (PyNum k3 L3)
                          = Returns r).
    { unfold FractalDimension3DODE. rewrite lit_R_Err. cbn [value].
      rewrite R_ltb_false by (cbn; lra).
      rewrite R_leb_true by (cbn; lra).
      destruct (fltb L2 _); eexists; reflexivity. }
    destruct E as [r E]. rewrite E. cbn [raised].
    apply Rabs_le_bounds in Hzero.
    repeat split; try discriminate; intros; lra. }
  assert (Hgt : L1 > 1 / 100).
  { unfold Rabs in Hpos. destruct (Rcase_abs L1); lra. }
  rewrite (FractalDimension3DODE_chaotic (PyNum k1 L1) (PyNum k2 L2)
             (PyNum k3 L3)) by exact Hgt.
  unfold py_truediv, py_add, py_abs, truediv. cbn [kind value].
  destruct (Req_dec_T L3 0) as [Hz | Hnz].
  - subst L3.
    assert (Ez : feqb (fabs (F:=R) 0) (lit 0) = true).
    { apply R_eqb_true. cbn. unfold Q2R. cbn. rewrite Rabs_R0. lra. }
    rewrite Ez.
    destruct k1, k2, k3; cbn [join bind raised];
      repeat split; try discriminate; try reflexivity; try assumption;
      intros; try discriminate;
      repeat match goal with H : _ /\ _ |- _ => destruct H end;
      discriminate.
  - assert (Ez : feqb (fabs (F:=R) L3) (lit 0) = false).
    { apply R_eqb_false. cbn. unfold Q2R. cbn.
      intros Heq. apply (Rabs_no_R0 L3 Hnz). lra. }
    rewrite Ez.
    destruct k1, k2, k3; cbn [join bind raised];
      repeat split; try discriminate; intros;
      repeat match goal with H : _ /\ _ |- _ => destruct H end;
      try discriminate; contradiction.
Qed.

(** X14: called with floats (built-in float or numpy.float64; integers
    too large for a float are not modelled), FractalDimension3DODE raises
    exactly when both tests of lines 50 and 52 fail, abs(LCE3) == 0 and no
    argument is a numpy.float64, and then it raises ZeroDivisionError; in
    every other case it returns.  This holds in every arithmetic, nan
    included; over the reals the condition is LCE1 > 0.01 and LCE3 = 0. *)
Theorem FractalDimension3DODE_raises_iff :
  (forall {F} `{Arith F} (LCE1 LCE2 LCE3 : pynum F),
      (FractalDimension3DODE LCE1 LCE2 LCE3 = Raises ZeroDivisionError
       <-> (fltb (value LCE1) (fneg (lit 0.01)) = false
            /\ fleb (fabs (value LCE1)) (lit 0.01) = false
            /\ feqb (fabs (value LCE3)) (lit 0) = true
            /\ kind LCE1 = PyFloat /\ kind LCE2 = PyFloat
            /\ kind LCE3 = PyFloat))
      /\ (raised (FractalDimension3DODE LCE1 LCE2 LCE3) = true
          <-> FractalDimension3DODE LCE1 LCE2 LCE3 = Raises ZeroDivisionError))
  /\ (forall LCE1 LCE2 LCE3 : pynum R,
         (FractalDimension3DODE LCE1 LCE2 LCE3 = Raises ZeroDivisionError
          <-> (value LCE1 > 1 / 100 /\ value LCE3 = 0
               /\ kind LCE1 = PyFloat /\ kind LCE2 = PyFloat
               /\ kind LCE3 = PyFloat))
         /\ (raised (FractalDimension3DODE LCE1 LCE2 LCE3) = true
             <-> FractalDimension3DODE LCE1 LCE2 LCE3
                 = Raises ZeroDivisionError)).
Proof.
  split; [| exact FractalDimension3DODE_raises_iff_R].
  intros F A [k1 L1] [k2 L2] [k3 L3].
  unfold FractalDimension3DODE. cbn [kind value].
  destruct (fltb L1 (fneg (lit 0.01))) eqn:T1.
  { cbn [raised]. repeat split; try discriminate;
      intros; repeat match goal with H : _ /\ _ |- _ => destruct H end;
      discriminate. }
  destruct (fleb (fabs L1) (lit 0.01)) eqn:T2.
  { destruct (fltb L2 (fneg (lit 0.01))); cbn [raised];
      repeat split; try discriminate;
      intros; repeat match goal with H : _ /\ _ |- _ => destruct H end;
      discriminate. }
  unfold py_truediv, py_add, py_abs, truediv. cbn [kind value].
  destruct (feqb (fabs L3) (lit 0)) eqn:T3;
    destruct k1, k2, k3; cbn [join bind raised];
    repeat split; try discriminate; try reflexivity;
    intros; repeat match goal with H : _ /\ _ |- _ => destruct H end;
    try discriminate; try reflexivity.
Qed.

(** Over the reals: the range of the last branch. *)
Lemma FractalDimension3DODE_chaotic_range :
  forall LCE1 LCE2 LCE3 : pynum R,
    value LCE1 > 1 / 100 ->
    value LCE1 + value LCE2 >= 0 ->
    value LCE3 < 0 ->
    value LCE1 + value LCE2 + value LCE3 < 0 ->
    exists D : pynum R,
      FractalDimension3DODE LCE1 LCE2 LCE3 = Returns D
      /\ value D = 2 + (value LCE1 + value LCE2) / (- value LCE3)
      /\ 2 <= value D < 3.
Proof.
  intros [k1 L1] [k2 L2] [k3 L3]. cbn [kind value].
  intros Hgt Hsum Hneg Hdiss.
  rewrite (FractalDimension3DODE_chaotic (PyNum k1 L1) (PyNum k2 L2)
             (PyNum k3 L3)) by exact Hgt.
  unfold py_truediv, py_add, py_abs, truediv. cbn [kind value].
  assert (Ez : feqb (fabs (F:=R) L3) (lit 0) = false).
  { apply R_eqb_false. cbn. unfold Q2R. cbn.
    rewrite Rabs_left by lra. lra. }
  rewrite Ez, lit_R_2. real_ops. cbn [fabs R_Arith].
  rewrite Rabs_left by exact Hneg.
  assert (Hq : 0 <= (L1 + L2) / - L3 < 1).
  { split.
    - apply Rmult_le_pos; [lra |]. left. apply Rinv_0_lt_compat. lra.
    - apply (Rmult_lt_reg_r (- L3)); [lra |].
      unfold Rdiv. rewrite Rmult_assoc, Rinv_l by lra. lra. }
  destruct (join (join k1 k2) k3); cbn [bind value];
    eexists; (split; [reflexivity |]); cbn [value]; split;
    try reflexivity; lra.
Qed.

(** X15: over the reals, in exact arithmetic, for a chaotic, dissipative
    spectrum (LCE1 > 0.01, LCE1 + LCE2 >= 0, LCE3 < 0 and a negative sum of
    the three) the function returns a dimension from 2 up to, but not
    reaching, 3: 2 + (LCE1 + LCE2) / (- LCE3).  In binary64 the sum can
    round up to 3.0 itself, as it does at (1 - 2^-53, 0.0, -1.0), which
    meets the four conditions. *)
Theorem FractalDimension3DODE_between_2_and_3 :
  (forall LCE1 LCE2 LCE3 : pynum R,
      value LCE1 > 1 / 100 ->
      value LCE1 + value LCE2 >= 0 ->
      value LCE3 < 0 ->
      value LCE1 + value LCE2 + value LCE3 < 0 ->
      exists D : pynum R,
        FractalDimension3DODE LCE1 LCE2 LCE3 = Returns D
        /\ value D = 2 + (value LCE1 + value LCE2) / (- value LCE3)
        /\ 2 <= value D < 3)
  /\ (let LCE1 := lit (F:=PrimFloat.float)
                    (9007199254740991 # 9007199254740992) in
      let LCE2 := lit (F:=PrimFloat.float) 0.0 in
      let LCE3 := fneg (lit (F:=PrimFloat.float) 1.0) in
      fltb (lit 0.01) LCE1 = true
      /\ fleb (lit 0.0) (fadd LCE1 LCE2) = true
      /\ fltb LCE3 (lit 0.0) = true
      /\ fltb (fadd (fadd LCE1 LCE2) LCE3) (lit 0.0) = true
      /\ fltb LCE1 (lit 1.0) = true
      /\ FractalDimension3DODE
           (PyNum PyFloat LCE1) (PyNum PyFloat LCE2) (PyNum PyFloat LCE3)
         = Returns (PyNum PyFloat (lit 3.0))).
Proof.
  split; [exact FractalDimension3DODE_chaotic_range |].
  cbv zeta. repeat split; vm_compute; reflexivity.
Qed.

(** The values of the comment of lines 39-41. *)
Lemma FractalDimension3DODE_between_2_and_3_witness :
  exists D : pynum R,
    FractalDimension3DODE
      (PyNum NpFloat64 (9058 / 10000)) (PyNum NpFloat64 0)
      (PyNum NpFloat64 (- (14572 / 1000)))
    = Returns D
    /\ value D = 2 + (9058 / 10000 + 0) / (- - (14572 / 1000))
    /\ 2 <= value D < 3.
Proof.
  apply (proj1 FractalDimension3DODE_between_2_and_3
           (PyNum NpFloat64 (9058 / 10000)) (PyNum NpFloat64 0)
           (PyNum NpFloat64 (- (14572 / 1000))));
    cbn [value]; lra.
Defined.

(** ** Further properties of Gram-Schmidt *)

Lemma PullBack_triangular_factorization_witness :
  exists (q0 q1 q2 : V3 R) (f0 f1 f2 : R) (LCE1' LCE2' LCE3' : pynum R),
    PullBack ln (1, 1, 0) (0, 1, 1) (1, 0, 1)
      (py_lit 0.0) (py_lit 0.0) (py_lit 0.0)
    = Returns (q0, q1, q2, (LCE1', LCE2', LCE3'))
    /\ AlignPullBack (1, 1, 0) (0, 1, 1) (1, 0, 1) = Returns (q0, q1, q2)
    /\ LCE1' = py_add (py_lit 0.0) (PyNum NpFloat64 (ln f0))
    /\ LCE2' = py_add (py_lit 0.0) (PyNum NpFloat64 (ln f1))
    /\ LCE3' = py_add (py_lit 0.0) (PyNum NpFloat64 (ln f2))
    /\ (1, 1, 0) = vscale f0 q0
    /\ (0, 1, 1) = vadd (vscale (dot q0 (0, 1, 1)) q0) (vscale f1 q1)
    /\ (1, 0, 1)
       = vadd (vadd (vscale (dot q0 (1, 0, 1)) q0) (vscale (dot q1 (1, 0, 1)) q1))
           (vscale f2 q2)
    /\ 0 < f0 /\ 0 < f1 /\ 0 < f2
    /\ f0 * f1 * f2 = Rabs (det3 (1, 1, 0) (0, 1, 1) (1, 0, 1))
    /\ value LCE1' + value LCE2' + value LCE3'
       = value (py_lit (F:=R) 0.0) + value (py_lit (F:=R) 0.0)
         + value (py_lit (F:=R) 0.0)
         + ln (Rabs (det3 (1, 1, 0) (0, 1, 1) (1, 0, 1))).
Proof.
  exact (PullBack_triangular_factorization
           (py_lit 0.0) (py_lit 0.0) (py_lit 0.0) skew_basis_independent).
Defined.

Section ScalingFacts.

Implicit Types u v w q : V3 R.






End ScalingFacts.






(** ** The sum of the exponents *)

Lemma FactorTrace_EvolvedTrace {F} `{Arith F} (cfg : Config F) n :
  forall t,
    FactorTrace cfg n t
    = map (fun e => let '(e1, e2, e3) := e in snd (GramSchmidt e1 e2 e3))
        (EvolvedTrace cfg n t).
Proof.
  induction n as [| n IH]; intros t.
  - reflexivity.
  - cbn [FactorTrace EvolvedTrace]. unfold Interval.
    destruct (InnerLoop cfg t) as [[[s e1] e2] e3].
    destruct (GramSchmidt e1 e2 e3) as [[[q0 q1] q2] fs] eqn:G.
    cbn [map snd fst]. rewrite G. cbn [snd]. f_equal. apply IH.
Qed.

Lemma sum_three_logs (fs : list (R * R * R)) :
  forall a1 a2 a3 : R,
    fold_left (fun acc f => acc + ln (comp1 f)) fs a1
    + fold_left (fun acc f => acc + ln (comp2 f)) fs a2
    + fold_left (fun acc f => acc + ln (comp3 f)) fs a3
    = fold_left
        (fun acc f => acc + (ln (comp1 f) + ln (comp2 f) + ln (comp3 f)))
        fs (a1 + a2 + a3).
Proof.
  induction fs as [| f fs IH]; intros a1 a2 a3.
  - reflexivity.
  - cbn [fold_left]. rewrite IH. f_equal. ring.
Qed.

Lemma sum_logs_volume (triples : list (V3 R * V3 R * V3 R)) :
  Forall independent_triple triples ->
  forall a : R,
    fold_left
      (fun acc f => acc + (ln (comp1 f) + ln (comp2 f) + ln (comp3 f)))
      (map (fun e => let '(e1, e2, e3) := e in snd (GramSchmidt e1 e2 e3))
         triples) a
    = fold_left (fun acc e => acc + ln (volume e)) triples a.
Proof.
  induction 1 as [| [[e1 e2] e3] triples Hli _ IH]; intros a.
  - reflexivity.
  - cbn [map fold_left]. rewrite IH. f_equal. f_equal.
    cbn [independent_triple] in Hli.
    pose proof (GramSchmidt_log_volume Hli) as Hln.
    destruct (GramSchmidt e1 e2 e3) as [[[q0 q1] q2] [[f0 f1] f2]].
    cbn [snd comp1 comp2 comp3 volume]. exact Hln.
Qed.

(** X18: when the tangent vectors stay linearly independent in every
    accumulation interval, the three exponents add up to the mean growth
    rate of the logarithm of the volume they span: the sum, over the
    intervals, of log |det| of the evolved vectors, divided by
    dt * nItsPerPB * nIterates. *)
Theorem exponents_sum_is_volume_growth :
  forall (cfg : Config R) (s e1 e2 e3 : V3 R),
    (0 < nIterates cfg)%nat ->
    let t0 := for_range_pure (nTransients cfg)
                (fun t => fst (Interval cfg t)) (s, e1, e2, e3) in
    let triples := EvolvedTrace cfg (nIterates cfg) t0 in
    Forall independent_triple triples ->
    exists LCE1 LCE2 LCE3 : pynum R,
      Estimate ln cfg s (e1, e2, e3) = Returns (LCE1, LCE2, LCE3)
      /\ value LCE1 + value LCE2 + value LCE3
         = fold_left (fun acc e => acc + ln (volume e)) triples 0
           / (dt cfg * float_of_nat (nItsPerPB cfg)
              * float_of_nat (nIterates cfg)).
Proof.
  intros cfg s e1 e2 e3 Hn t0 triples Hind.
  rewrite Estimate_reaches_Convert. fold t0.
  rewrite !record_log_fold.
  pose proof (FactorTrace_length cfg (nIterates cfg) t0) as Hlen.
  pose proof (FactorTrace_EvolvedTrace cfg (nIterates cfg) t0) as Htr.
  fold triples in Htr.
  destruct (FactorTrace cfg (nIterates cfg) t0) as [| f fs] eqn:Ef;
    [cbn in Hlen; lia |].
  unfold Convert, py_truediv, truediv, IntegrationTime.
  cbn [kind value join bind].
  eexists _, _, _. split; [reflexivity |].
  cbn [value]. real_ops. rewrite lit_R_0.
  set (T := dt cfg * float_of_nat (nItsPerPB cfg) * float_of_nat (nIterates cfg)).
  replace (fold_left (fun acc f0 => acc + ln (comp1 f0)) (f :: fs) 0 / T
           + fold_left (fun acc f0 => acc + ln (comp2 f0)) (f :: fs) 0 / T
           + fold_left (fun acc f0 => acc + ln (comp3 f0)) (f :: fs) 0 / T)
    with ((fold_left (fun acc f0 => acc + ln (comp1 f0)) (f :: fs) 0
           + fold_left (fun acc f0 => acc + ln (comp2 f0)) (f :: fs) 0
           + fold_left (fun acc f0 => acc + ln (comp3 f0)) (f :: fs) 0) / T)
    by (unfold Rdiv; ring).
  rewrite sum_three_logs, Htr, (sum_logs_volume Hind).
  f_equal. f_equal. ring.
Qed.

Lemma DecayConfig_tangent_step (x y z wx wy wz : R) :
  TangentFlowRKThreeD 0 1 0 0 0 1 x y z LorenzDXDot LorenzDYDot LorenzDZDot
    wx wy wz 1
  = (3 / 8 * wx, wy, 3 / 8 * wz).
Proof.
  unfold TangentFlowRKThreeD, LorenzDXDot, LorenzDYDot, LorenzDZDot.
  rewrite lit_R_2, lit_R_6. real_ops. vec3_eq; field.
Qed.

Lemma exponents_sum_is_volume_growth_witness :
  let t0 := for_range_pure (nTransients DecayConfig)
              (fun t => fst (Interval DecayConfig t))
              ((1, 1, 1), (1, 0, 0), (0, 1, 0), (0, 0, 1)) in
  let triples := EvolvedTrace DecayConfig (nIterates DecayConfig) t0 in
  exists LCE1 LCE2 LCE3 : pynum R,
    Estimate ln DecayConfig (1, 1, 1) ((1, 0, 0), (0, 1, 0), (0, 0, 1))
    = Returns (LCE1, LCE2, LCE3)
    /\ value LCE1 + value LCE2 + value LCE3
       = fold_left (fun acc e => acc + ln (volume e)) triples 0
         / (dt DecayConfig * float_of_nat (nItsPerPB DecayConfig)
            * float_of_nat (nIterates DecayConfig)).
Proof.
  refine (exponents_sum_is_volume_growth DecayConfig
            (1, 1, 1) (1, 0, 0) (0, 1, 0) (0, 0, 1) _ _).
  - cbn. lia.
  - cbn [nTransients nIterates DecayConfig for_range_pure EvolvedTrace].
    unfold InnerLoop. cbn [nItsPerPB DecayConfig for_range_pure].
    unfold InnerStep.
    destruct (advance DecayConfig (1, 1, 1)) as [[x' y'] z'].
    unfold advanceTangent.
    cbn [alpha gamma mu beta delta lambd dt DecayConfig].
    rewrite !DecayConfig_tangent_step.
    constructor; [| constructor].
    intros a b c Heq. cbn in Heq. injection Heq as Hx Hy Hz.
    repeat split; lra.
Defined.

(** ** The trajectory and the tangent vectors *)

Section Autonomy.

Context {F : Type} `{Arith F}.
Variable cfg : Config F.

Lemma InnerSteps_split n :
  forall s e1 e2 e3,
    for_range_pure n (InnerStep cfg) (s, e1, e2, e3)
    = (for_range_pure n (advance cfg) s,
       tangent_along cfg n s e1, tangent_along cfg n s e2,
       tangent_along cfg n s e3).
Proof.
  induction n as [| n IH]; intros s e1 e2 e3.
  - reflexivity.
  - cbn [for_range_pure tangent_along]. unfold InnerStep at 2. apply IH.
Qed.

Lemma Interval_state t :
  StateOf (fst (Interval cfg t))
  = for_range_pure (nItsPerPB cfg) (advance cfg) (StateOf t).
Proof.
  destruct t as [[[s e1] e2] e3]. unfold Interval, InnerLoop.
  rewrite InnerSteps_split.
  destruct (GramSchmidt _ _ _) as [[[q0 q1] q2] fs]. reflexivity.
Qed.

Lemma Intervals_state m :
  forall t,
    StateOf (for_range_pure m (fun t => fst (Interval cfg t)) t)
    = for_range_pure (m * nItsPerPB cfg) (advance cfg) (StateOf t).
Proof.
  induction m as [| m IH]; intros t.
  - reflexivity.
  - cbn [for_range_pure Nat.mul]. rewrite IH, Interval_state.
    rewrite for_range_pure_add. reflexivity.
Qed.

End Autonomy.

(** X19: within a pull-back interval the state follows its own
    trajectory, unaffected by the tangent vectors, and each tangent vector
    is carried along that trajectory on its own, unaffected by the other
    two. *)
Theorem InnerLoop_evolves_separately :
  forall {F} `{Arith F} (cfg : Config F) (s e1 e2 e3 : V3 F),
    InnerLoop cfg (s, e1, e2, e3)
    = (for_range_pure (nItsPerPB cfg) (advance cfg) s,
       tangent_along cfg (nItsPerPB cfg) s e1,
       tangent_along cfg (nItsPerPB cfg) s e2,
       tangent_along cfg (nItsPerPB cfg) s e3).
Proof.
  intros F A cfg s e1 e2 e3. unfold InnerLoop. apply InnerSteps_split.
Qed.

(** X20: the pull-backs never touch the state: at the end of the
    estimation the state is the one reached from the starting state by
    (nTransients + nIterates) * nItsPerPB integrator steps, whatever the
    tangent vectors were. *)
Theorem estimation_state_is_trajectory :
  forall {F} `{Arith F} (log : F -> F) (cfg : Config F) (t : Tangents)
    (LCE1 LCE2 LCE3 : pynum F),
    exists t2 sums,
      (t1 <- AlignLoop cfg t ;; AccumulateLoop log cfg (t1, (LCE1, LCE2, LCE3)))
      = Returns (t2, sums)
      /\ StateOf t2
         = for_range_pure ((nTransients cfg + nIterates cfg) * nItsPerPB cfg)
             (advance cfg) (StateOf t).
Proof.
  intros F A log cfg t LCE1 LCE2 LCE3.
  rewrite AlignLoop_returns. cbn [bind].
  unfold AccumulateLoop. rewrite AccumulateLoop_trace.
  eexists _, _. split; [reflexivity |].
  rewrite !Intervals_state, <- for_range_pure_add.
  f_equal. lia.
Qed.

Section TangentLinearity.

Variable cfg : Config R.

Lemma advanceTangent_linear (s u v : V3 R) (k : R) :
  advanceTangent cfg s (vadd u v)
  = vadd (advanceTangent cfg s u) (advanceTangent cfg s v)
  /\ advanceTangent cfg s (vscale k u) = vscale k (advanceTangent cfg s u).
Proof.
  destruct s as [[x y] z], u as [[ux uy] uz], v as [[vx vy] vz].
  unfold advanceTangent, TangentFlowRKThreeD,
    LorenzDXDot, LorenzDYDot, LorenzDZDot.
  cbn [vadd vscale]. rewrite lit_R_2, lit_R_6. real_ops.
  split; vec3_eq; field.
Qed.

End TangentLinearity.

(** X21: over the reals the map that carries a tangent vector through
    any number of integrator steps along a trajectory is linear: it
    commutes with sums and with scalar multiples. *)
Theorem tangent_along_linear :
  forall (cfg : Config R) (n : nat) (s u v : V3 R) (k : R),
    tangent_along cfg n s (vadd u v)
    = vadd (tangent_along cfg n s u) (tangent_along cfg n s v)
    /\ tangent_along cfg n s (vscale k u) = vscale k (tangent_along cfg n s u).
Proof.
  intros cfg n. induction n as [| n IH]; intros s u v k.
  - split; reflexivity.
  - cbn [tangent_along].
    destruct (advanceTangent_linear cfg (advance cfg s) u v k) as [Ha Hs].
    rewrite Ha, Hs.
    destruct (IH (advance cfg s) (advanceTangent cfg (advance cfg s) u)
                (advanceTangent cfg (advance cfg s) v) k) as [I1 I2].
    split; [exact I1 | exact I2].
Qed.
